(** * The MaxMind country database writer ([plugin/maxmind/country_mmdb_out.go])

    A shallow embedding of the output converter [maxmindMMDBOut]: label
    selection ([filterAndSortList]), writer construction ([createWriter]),
    insertion of one entry ([addEntryToWriter]) and the two output loops
    ([outputSingleFile], [outputOneFilePerList]) behind [Output].

    Go strings are byte strings ([string]); Go slices are lists; the
    [map[string]bool] used for exclusion is a [gmap string bool]; the file
    system and the log are threaded explicitly through a [World]. *)

From Stdlib Require Import ZArith Lia Ascii String.
From stdpp Require Import base strings list gmap sorting.


(** ** Errors and results *)

(** A Go [error] value: either an error produced by a collaborator, or an
    error wrapped by [fmt.Errorf(prefix ... %w)]. *)
Inductive error : Type :=
| Err (msg : string)
| Errorf (prefix : string) (wrapped : error).

Inductive result (A : Type) : Type :=
| Ok (a : A)
| Fail (e : error).
Arguments Ok {A} a.
Arguments Fail {A} e.

(** [if err != nil { return err }] after each fallible call is the bind of
    the error monad; the notation [x ← r; k] is stdpp's. *)
#[global] Instance result_bind : MBind result := fun A B k r =>
  match r with
  | Ok a => k a
  | Fail e => Fail e
  end.

(** ** Addresses, prefixes and prefix sets ([net/netip], [netipx]) *)

(** A [netip.Addr]: the address family and the address as a big-endian
    number of 32, respectively 128, bits. *)
Inductive Addr : Type :=
| IPv4Addr (a : Z)
| IPv6Addr (a : Z).

(** A [netip.Prefix]: an address and a mask length. *)
Record Prefix : Type := MkPrefix { pAddr : Addr; pBits : nat }.

Definition Is4 (p : Prefix) : bool :=
  match pAddr p with IPv4Addr _ => true | IPv6Addr _ => false end.

Definition Is6 (p : Prefix) : bool :=
  match pAddr p with IPv4Addr _ => false | IPv6Addr _ => true end.

(** A [netipx.IPSet], seen through its only use, [Prefixes()]. *)
Record IPSet : Type := MkIPSet { Prefixes : list Prefix }.

(** ** The Prefix Source ([lib.Entry], [lib.Container]) *)

(** Modelled from the spec: [lib.Entry] is declared in package [lib], which is
    not part of the sources at hand.  An entry has a name and two accessors,
    one per address family, each of which returns a prefix set or an error. *)
Record Entry : Type := MkEntry {
  GetName : string;
  GetIPv4Set : result IPSet;
  GetIPv6Set : result IPSet
}.

(** Modelled from the spec: [lib.Container] is an interface of package [lib].
    [GetEntry] looks a label up ("not found" is [None]); [Loop] enumerates
    the entries, in an order the interface does not fix. *)
Record Container : Type := MkContainer {
  GetEntry : string -> option Entry;
  Loop : list Entry
}.

(** Modelled from the spec: the two named values of [lib.IPType]. *)
Definition lib_IPv4 : string := "ipv4".
Definition lib_IPv6 : string := "ipv6".

(** ** Configuration *)

(** The receiver of every method below.  [Type] is spelled [Type_];
    [lib.Action] and [lib.IPType] are string types. *)
Record maxmindMMDBOut : Type := MkOut {
  Type_ : string;
  Action : string;
  Description : string;
  OutputName : string;
  OutputDir : string;
  Want : list string;
  Exclude : list string;
  OneFilePerList : bool;
  OnlyIPType : string
}.

(** ** Sorting

    [slices.Sort] on [[]string] orders by Go's [<] on strings, which compares
    byte by byte; [String.le] is that order.  The sorted permutation of a
    list of strings is unique, so any sorting function stands for it. *)
Definition slices_Sort (l : list string) : list string := merge_sort String.le l.

(** Reading a Go [map[string]bool]: a missing key reads as [false]. *)
Definition mapGet (mp : gmap string bool) (k : string) : bool :=
  default false (mp !! k).

(** ** Go's string functions on ASCII text

    Labels are ISO country codes.  On a string made of ASCII bytes only,
    [strings.ToUpper], [strings.ToLower] and [strings.TrimSpace] do what the
    three functions below do; these are the instances at which the general
    statements are evaluated. *)

Definition ascii_upper (c : ascii) : ascii :=
  let n := nat_of_ascii c in
  if (97 <=? n)%nat && (n <=? 122)%nat then ascii_of_nat (n - 32) else c.

Definition ascii_lower (c : ascii) : ascii :=
  let n := nat_of_ascii c in
  if (65 <=? n)%nat && (n <=? 90)%nat then ascii_of_nat (n + 32) else c.

(** Tab, line feed, vertical tab, form feed, carriage return and space. *)
Definition ascii_isSpace (c : ascii) : bool :=
  let n := nat_of_ascii c in
  ((9 <=? n)%nat && (n <=? 13)%nat) || (n =? 32)%nat.

Fixpoint string_map (f : ascii -> ascii) (s : string) : string :=
  match s with
  | EmptyString => EmptyString
  | String c s' => String (f c) (string_map f s')
  end.

Fixpoint trimLeft (s : string) : string :=
  match s with
  | EmptyString => EmptyString
  | String c s' => if ascii_isSpace c then trimLeft s' else s
  end.

Definition ascii_ToUpper (s : string) : string := string_map ascii_upper s.
Definition ascii_ToLower (s : string) : string := string_map ascii_lower s.
Definition ascii_TrimSpace (s : string) : string :=
  String.rev (trimLeft (String.rev (trimLeft s))).

(** [filepath.Join] on a clean directory and a plain file name. *)
Definition slash_Join (dir file : string) : string := dir +:+ "/" +:+ file.

(** ** The database writer ([github.com/maxmind/mmdbwriter]) *)

(** [mmdbtype.DataType], restricted to the two constructors the plugin
    builds: strings and maps.  A map literal is kept as its list of
    key/value pairs. *)
#[warnings="-register-all"]
Inductive DataType : Type :=
| mmdbtype_String (s : string)
| mmdbtype_Map (kv : list (string * DataType)).

Module mmdbwriter.
Local Open Scope Z_scope.

Record Options : Type := MkOptions {
  DatabaseType : string;
  Description : list (string * string);
  IPVersion : Z;
  RecordSize : Z;
  IncludeReservedNetworks : bool
}.

(** Modelled from the spec: the trie node of section 3 (TrieNode): empty
    (no coverage), a leaf referencing a record, or an internal node with a
    left (bit 0) and a right (bit 1) child. *)
Inductive node : Type :=
| Empty
| Leaf (r : DataType)
| Node (l r : node).

Record Tree : Type := MkTree { opts : Options; root : node }.

(** The children seen when descending through a node: an empty node has
    empty children, a leaf is split into two leaves of the same record. *)
Definition children (n : node) : node * node :=
  match n with
  | Empty => (Empty, Empty)
  | Leaf r => (Leaf r, Leaf r)
  | Node l r => (l, r)
  end.

(** Modelled from the spec: insertion of section 4.3.  The walk follows the
    prefix's bits from the most significant one, creating internal nodes
    and splitting leaves on the way; where the prefix ends, the whole
    subtree is replaced by one leaf. *)
Fixpoint insert_bits (bits : list bool) (v : DataType) (n : node) : node :=
  match bits with
  | [] => Leaf v
  | b :: bits' =>
      let '(l, r) := children n in
      if b then Node l (insert_bits bits' v r)
      else Node (insert_bits bits' v l) r
  end.

(** Modelled from the spec: lookup walks the address bits down to a leaf;
    an empty node is "no match". *)
Fixpoint lookup_bits (bits : list bool) (n : node) : option DataType :=
  match n with
  | Empty => None
  | Leaf r => Some r
  | Node l r =>
      match bits with
      | [] => None
      | b :: bits' => lookup_bits bits' (if b then r else l)
      end
  end.

(** The [w] bits of the number [a], most significant first. *)
Definition addr_bits (w : nat) (a : Z) : list bool :=
  (fun i => Z.testbit a (Z.of_nat (w - 1 - i)%nat)) <$> seq 0 w.

(** Modelled from the spec: the bit path of an address in a tree of the
    given IP version.  An IPv4 tree is 32 bits deep and holds no IPv6
    address; an IPv6 tree is 128 bits deep and holds the IPv4 addresses in
    the subtree under 96 zero bits. *)
Definition addr_path (ipVersion : Z) (a : Addr) : result (list bool) :=
  match a with
  | IPv4Addr a =>
      if decide (ipVersion = 4) then Ok (addr_bits 32 a)
      else Ok (replicate 96%nat false ++ addr_bits 32 a)
  | IPv6Addr a =>
      if decide (ipVersion = 4)
      then Fail (Err "cannot insert an IPv6 network into an IPv4 tree")
      else Ok (addr_bits 128 a)
  end.

Definition addr_width (a : Addr) : nat :=
  match a with IPv4Addr _ => 32%nat | IPv6Addr _ => 128%nat end.

(** The bit path of a network: the address path cut after the mask. *)
Definition network_path (ipVersion : Z) (p : Prefix) : result (list bool) :=
  if decide (pBits p <= addr_width (pAddr p))%nat then
    path ← addr_path ipVersion (pAddr p);
    Ok (take (length path - (addr_width (pAddr p) - pBits p))%nat path)
  else Fail (Err "invalid prefix length").

(** Modelled from the spec: [mmdbwriter.New] accepts IP version 4 or 6 and
    one of the record sizes of the format, and starts from an empty trie. *)
Definition New (o : Options) : result Tree :=
  if bool_decide (IPVersion o = 4 \/ IPVersion o = 6)
     && bool_decide (RecordSize o = 24 \/ RecordSize o = 28 \/ RecordSize o = 32)
  then Ok (MkTree o Empty)
  else Fail (Err "unsupported writer options").

(** Modelled from the spec: [Tree.Insert].  A network that the tree's
    address width cannot hold is an error. *)
Definition Insert (network : Prefix) (value : DataType) (t : Tree) : result Tree :=
  path ← network_path (IPVersion (opts t)) network;
  Ok (MkTree (opts t) (insert_bits path value (root t))).

(** Modelled from the spec: the record an address resolves to. *)
Definition Lookup (t : Tree) (a : Addr) : option DataType :=
  match addr_path (IPVersion (opts t)) a with
  | Ok path => lookup_bits path (root t)
  | Fail _ => None
  end.

End mmdbwriter.

(** [netipx.PrefixIPNet] turns a [netip.Prefix] into a [net.IPNet] of the
    same address and mask length. *)
Definition PrefixIPNet (p : Prefix) : Prefix := p.

(** ** The world outside: files and log *)

(** What a file holds after [os.Create]: nothing yet, or the database
    serialised from a tree by a [WriteTo] that ran to its end. *)
Inductive FileContent : Type :=
| Created
| Database (t : mmdbwriter.Tree).

Record World : Type := MkWorld {
  files : gmap string FileContent;
  logs : list string
}.

(** The operating system's refusals: which directory cannot be made, which
    path cannot be created, on which path writing fails. *)
Record OS : Type := MkOS {
  MkdirAll_err : string -> option error;
  Create_err : string -> option error;
  WriteTo_err : string -> option error
}.

Definition log_Printf (line : string) (w : World) : World :=
  MkWorld (files w) (logs w ++ [line]).

Definition os_Create (os : OS) (path : string) (w : World) : result unit * World :=
  match Create_err os path with
  | Some e => (Fail e, w)
  | None => (Ok tt, MkWorld (<[path := Created]> (files w)) (logs w))
  end.

Definition WriteTo (os : OS) (writer : mmdbwriter.Tree) (path : string) (w : World)
  : result unit * World :=
  match WriteTo_err os path with
  | Some e => (Fail e, w)
  | None => (Ok tt, MkWorld (<[path := Database writer]> (files w)) (logs w))
  end.

(** ** Types of the construction and of the command line *)

(** The anonymous struct [tmp] that [newMaxmindMMDBOut] decodes into. *)
Record tmpArgs : Type := MkTmp {
  tmpOutputName : string;
  tmpOutputDir : string;
  tmpWant : list string;
  tmpExclude : list string;
  tmpOneFilePerList : bool;
  tmpOnlyIPType : string
}.

(** The zero value of [tmp]. *)
Definition tmpZero : tmpArgs := MkTmp "" "" [] [] false "".

(** The values of the flags after [flag.Parse]. *)
Record Flags : Type := MkFlags {
  flag_l : bool;
  flag_c : string;
  flag_input : string;
  flag_inputFile : string;
  flag_inputName : string;
  flag_output : string;
  flag_outputFile : string;
  flag_wantList : string;
  flag_onlyIPType : string
}.

(** What the maps of type [map[string]interface{}] hold here: strings,
    slices of strings, slices of values and maps again. *)
#[warnings="-register-all"]
Inductive value : Type :=
| VString (s : string)
| VStrings (l : list string)
| VList (l : list value)
| VMap (kv : gmap string value).

(** How an instance was configured. *)
Inductive configured : Type :=
| FromFile (path : string)
| FromBytes (bytes : string).

(** Package [lib] as [main] meets it: whether [NewInstance], the two
    [InitConfig] calls and [Run] return an error. *)
Record Lib : Type := MkLib {
  NewInstance_err : option error;
  InitConfig_err : string -> option error;
  InitConfigFromBytes_err : string -> option error;
  Run_err : configured -> option error
}.

(** What [main] does that can be seen from outside. *)
Inductive event : Type :=
| EvListInputConverter
| EvListOutputConverter
| EvPrint (text : string)
| EvNewInstance
| EvInitConfig (path : string)
| EvInitConfigFromBytes (bytes : string)
| EvRun.

(** ** Sample data

    A list-backed container, an operating system that refuses nothing, and
    a few entries, configurations and stores at which the statements below
    are evaluated. *)
Module Sample.

(** A container over a list of entries: [GetEntry] finds the first entry
    of that name, [Loop] yields the list. *)
Definition containerOf (entries : list Entry) : Container :=
  MkContainer
    (fun name => list_find (fun e => GetName e = name) entries ≫= (fun p => Some p.2))
    entries.

Definition os_ok : OS := MkOS (fun _ => None) (fun _ => None) (fun _ => None).

Definition world0 : World := MkWorld ∅ [].

(** 192.0.2.0/24, 203.0.113.0/24, 198.51.100.0/24 and 2001:db8::/32. *)
Definition net_192_0_2 : Prefix := MkPrefix (IPv4Addr 3221225984) 24.
Definition net_203_0_113 : Prefix := MkPrefix (IPv4Addr 3405803776) 24.
Definition net_198_51_100 : Prefix := MkPrefix (IPv4Addr 3325256704) 24.
Definition net_2001_db8 : Prefix :=
  MkPrefix (IPv6Addr 42540766411282592856903984951653826560) 32.

Definition entry_US : Entry :=
  MkEntry "US" (Ok (MkIPSet [net_192_0_2])) (Ok (MkIPSet [net_2001_db8])).
Definition entry_JP : Entry :=
  MkEntry "JP" (Ok (MkIPSet [net_203_0_113])) (Fail (Err "entry JP has no ipv6 set")).
Definition entry_CN : Entry :=
  MkEntry "CN" (Ok (MkIPSet [net_198_51_100])) (Ok (MkIPSet [])).
(** An entry without IPv4 data, and one without any data. *)
Definition entry_XX : Entry :=
  MkEntry "XX" (Fail (Err "entry XX has no ipv4 set")) (Ok (MkIPSet [net_2001_db8])).
Definition entry_YY : Entry :=
  MkEntry "YY" (Fail (Err "entry YY has no ipv4 set"))
               (Fail (Err "entry YY has no ipv6 set")).
(** An entry whose name is not in upper case. *)
Definition entry_us : Entry := MkEntry "us" (Ok (MkIPSet [])) (Ok (MkIPSet [])).
(** The two entries of the overlap example. *)
Definition entry_A : Entry :=
  MkEntry "A" (Ok (MkIPSet [MkPrefix (IPv4Addr 167772160) 8])) (Ok (MkIPSet [])).
Definition entry_B : Entry :=
  MkEntry "B" (Ok (MkIPSet [MkPrefix (IPv4Addr 167837696) 16])) (Ok (MkIPSet [])).

Definition container3 : Container := containerOf [entry_US; entry_JP; entry_CN].
Definition container4 : Container :=
  containerOf [entry_US; entry_XX; entry_JP; entry_CN].
Definition container_us : Container := containerOf [entry_us; entry_JP].
Definition container_AB : Container := containerOf [entry_B; entry_A].

Definition config (want exclude : list string) (oneFilePerList : bool)
           (onlyIPType : string) : maxmindMMDBOut :=
  MkOut "maxmindMMDB" "output" "Convert data to MaxMind mmdb database format"
        "Country.mmdb" "output/mmdb" want exclude oneFilePerList onlyIPType.

(** A store with [m.Want] at address 0 and [m.Exclude] at address 1. *)
Definition storeOf (m : maxmindMMDBOut) : gmap nat (list string) :=
  <[0%nat := Want m]> (<[1%nat := Exclude m]> ∅).

Definition writer6 : mmdbwriter.Tree :=
  mmdbwriter.MkTree
    (mmdbwriter.MkOptions "GeoIP2-Country"
       [("en", "GeoIP2 Country database converted by geoip tool")] 6 28 true)
    mmdbwriter.Empty.

(** Short names for Go's string functions on ASCII text. *)
Abbreviation up := ascii_ToUpper.
Abbreviation trim := ascii_TrimSpace.
Abbreviation low := ascii_ToLower.

End Sample.

(** More sample data: operating systems that refuse a write, a decoder,
    flags and a library. *)
Module SampleRun.
Import Sample.

Definition os_no_write (path : string) : OS :=
  MkOS (fun _ => None) (fun _ => None)
       (fun p => if decide (p = path) then Some (Err "no space left on device")
                 else None).

(** A decoder that knows the empty object only. *)
Definition decode (data : string) : result tmpArgs :=
  if decide (data = "{}") then Ok tmpZero
  else Fail (Err "unexpected end of JSON input").

Definition lib_ok : Lib :=
  MkLib None (fun _ => None) (fun _ => None) (fun _ => None).

Definition marshal (v : value) : result string := Ok "config".

(** [-output maxmindMMDB -outputFile out.mmdb -wantList cn,us], without
    [-input]. *)
Definition flags_no_input : Flags :=
  MkFlags false "config.json" "" "" "" "maxmindMMDB" "out.mmdb" "cn,us" "".

(** The same with [-input text -inputFile data/cn.txt]. *)
Definition flags_text : Flags :=
  MkFlags false "config.json" "text" "data/cn.txt" "" "maxmindMMDB" "out.mmdb"
          "cn,us" "ipv4".

(** [filepath.Join] on plain elements, where the directory may be "./". *)
Definition clean_Join (dir file : string) : string :=
  if decide (dir = "./") then file else dir +:+ "/" +:+ file.

(** 192.0.2.5, 10.1.2.3 and 11.0.0.1. *)
Definition addr_192_0_2_5 : Addr := IPv4Addr 3221225989.
Definition addr_10_1_2_3 : Addr := IPv4Addr 167837955.
Definition addr_11_0_0_1 : Addr := IPv4Addr 184549377.

End SampleRun.

(** ** The plugin *)

Section Plugin.
(** [strings.ToUpper], [strings.TrimSpace], [strings.ToLower] and
    [filepath.Join] belong to Go's standard library: the plugin is studied
    for any such functions, and for any behaviour of the operating
    system. *)
Variables (ToUpper TrimSpace ToLower : string -> string).
Variable Join : string -> string -> string.
Variable os : OS.

(** A statement depends on the functions it names, and on no other. *)
Set Default Proof Using "Type".

(** *** The Selector *)

(** First loop of [filterAndSortList]: the exclusion map. *)
Definition excludeMapOf (excl : list string) : gmap string bool :=
  foldl (fun mp exclude =>
           let exclude := ToUpper (TrimSpace exclude) in
           if decide (exclude <> "") then <[exclude := true]> mp else mp)
        ∅ excl.

(** Second loop: the wanted labels that survive exclusion, in input order. *)
Definition wantListOf (excludeMap : gmap string bool) (want : list string)
  : list string :=
  foldl (fun wantList want =>
           let want := ToUpper (TrimSpace want) in
           if bool_decide (want <> "") && negb (mapGet excludeMap want)
           then wantList ++ [want] else wantList)
        [] want.

(** Third loop: every container entry's name, unless excluded. *)
Definition loopListOf (excludeMap : gmap string bool) (entries : list Entry)
  : list string :=
  foldl (fun list entry =>
           let name := GetName entry in
           if mapGet excludeMap name then list else list ++ [name])
        [] entries.

Definition filterAndSortList (m : maxmindMMDBOut) (container : Container)
  : list string :=
  let excludeMap := excludeMapOf (Exclude m) in
  let wantList := wantListOf excludeMap (Want m) in
  if decide (0 < length wantList)%nat then slices_Sort wantList
  else slices_Sort (loopListOf excludeMap (Loop container)).

(** *** The words of the specification *)

(** Normalisation of a want or exclude list: trim, uppercase, drop the
    entries that became empty. *)
Definition normalized (l : list string) : list string :=
  filter (fun s => s <> "") ((fun s => ToUpper (TrimSpace s)) <$> l).

(** [l] without the members of [excl]. *)
Definition minus (l excl : list string) : list string :=
  filter (fun s => s ∉ excl) l.

(** The Selector as the specification words it: [want − exclude],
    deduplicated and sorted, when the normalised want-list is not empty;
    otherwise every available label minus exclude, sorted. *)
Definition spec_select (want excl available : list string) : list string :=
  if decide (normalized want <> [])
  then slices_Sort (remove_dups (minus (normalized want) (normalized excl)))
  else slices_Sort (minus available (normalized excl)).



(** *** Building a writer *)

Definition createWriter (m : maxmindMMDBOut) : result mmdbwriter.Tree :=
  let ipVersion := if decide (OnlyIPType m = lib_IPv4) then 4%Z else 6%Z in
  let opts :=
    {| mmdbwriter.DatabaseType := "GeoIP2-Country";
       mmdbwriter.Description :=
         [("en", "GeoIP2 Country database converted by geoip tool")];
       mmdbwriter.IPVersion := ipVersion;
       mmdbwriter.RecordSize := 28;
       mmdbwriter.IncludeReservedNetworks := true |} in
  writer ← mmdbwriter.New opts;
  Ok writer.

(** The [switch m.OnlyIPType] of [addEntryToWriter]: the prefixes to
    insert.  In the default branch an accessor's error only means that
    nothing is appended for that family. *)
Definition entryPrefixes (m : maxmindMMDBOut) (entry : Entry)
  : result (list Prefix) :=
  if decide (OnlyIPType m = lib_IPv4) then
    ipv4Set ← GetIPv4Set entry;
    Ok (Prefixes ipv4Set)
  else if decide (OnlyIPType m = lib_IPv6) then
    ipv6Set ← GetIPv6Set entry;
    Ok (Prefixes ipv6Set)
  else
    let prefixes := [] in
    let prefixes :=
      match GetIPv4Set entry with
      | Ok ipv4Set => prefixes ++ Prefixes ipv4Set
      | Fail _ => prefixes
      end in
    let prefixes :=
      match GetIPv6Set entry with
      | Ok ipv6Set => prefixes ++ Prefixes ipv6Set
      | Fail _ => prefixes
      end in
    Ok prefixes.

(** The record inserted for a country code. *)
Definition countryRecord (countryCode : string) : DataType :=
  mmdbtype_Map
    [("country", mmdbtype_Map [("iso_code", mmdbtype_String countryCode)]);
     ("registered_country",
      mmdbtype_Map [("iso_code", mmdbtype_String countryCode)])].

(** The insertion loop of [addEntryToWriter]: it stops at the first
    error. *)
Fixpoint insertPrefixes (writer : mmdbwriter.Tree) (prefixes : list Prefix)
         (record : DataType) : result mmdbwriter.Tree :=
  match prefixes with
  | [] => Ok writer
  | prefix :: rest =>
      let ipNet := PrefixIPNet prefix in
      writer' ← mmdbwriter.Insert ipNet record writer;
      insertPrefixes writer' rest record
  end.

Definition addEntryToWriter (m : maxmindMMDBOut) (writer : mmdbwriter.Tree)
           (entry : Entry) (countryCode : string) : result mmdbwriter.Tree :=
  prefixes ← entryPrefixes m entry;
  insertPrefixes writer prefixes (countryRecord countryCode).

(** *** The two output modes *)

Definition notFoundLine (name : string) : string :=
  "❌ entry " +:+ name +:+ " not found" +:+ String (ascii_of_nat 10) "".

Definition doneLine (m : maxmindMMDBOut) (filename : string) : string :=
  "✅ [" +:+ Type_ m +:+ "] " +:+ filename +:+ " --> " +:+ OutputDir m.

Definition addFailed (name : string) (err : error) : error :=
  Errorf ("failed to add entry " +:+ name +:+ ": ") err.

(** The loop of [outputSingleFile] over the selected labels. *)
Fixpoint addEntries (m : maxmindMMDBOut) (container : Container)
         (list : list string) (writer : mmdbwriter.Tree) (w : World)
  : result mmdbwriter.Tree * World :=
  match list with
  | [] => (Ok writer, w)
  | name :: rest =>
      match GetEntry container name with
      | None => addEntries m container rest writer (log_Printf (notFoundLine name) w)
      | Some entry =>
          match addEntryToWriter m writer entry name with
          | Fail err => (Fail (addFailed name err), w)
          | Ok writer' => addEntries m container rest writer' w
          end
      end
  end.

(** Creating the file at [outputPath] and writing the tree to it. *)
Definition writeFile (writer : mmdbwriter.Tree) (outputPath : string) (w : World)
  : result unit * World :=
  match os_Create os outputPath w with
  | (Fail err, w1) => (Fail err, w1)
  | (Ok _, w1) => WriteTo os writer outputPath w1
  end.

Definition outputSingleFile (m : maxmindMMDBOut) (container : Container)
           (list : list string) (w : World) : result unit * World :=
  match createWriter m with
  | Fail err => (Fail err, w)
  | Ok writer =>
      match addEntries m container list writer w with
      | (Fail err, w1) => (Fail err, w1)
      | (Ok writer', w1) =>
          let outputPath := Join (OutputDir m) (OutputName m) in
          match writeFile writer' outputPath w1 with
          | (Fail err, w2) => (Fail err, w2)
          | (Ok _, w2) => (Ok tt, log_Printf (doneLine m (OutputName m)) w2)
          end
      end
  end.

Fixpoint outputOneFilePerList (m : maxmindMMDBOut) (container : Container)
         (list : list string) (w : World) : result unit * World :=
  match list with
  | [] => (Ok tt, w)
  | name :: rest =>
      match GetEntry container name with
      | None =>
          outputOneFilePerList m container rest (log_Printf (notFoundLine name) w)
      | Some entry =>
          match createWriter m with
          | Fail err => (Fail err, w)
          | Ok writer =>
              match addEntryToWriter m writer entry name with
              | Fail err => (Fail (addFailed name err), w)
              | Ok writer' =>
                  let filename := ToLower name +:+ ".mmdb" in
                  let outputPath := Join (OutputDir m) filename in
                  match writeFile writer' outputPath w with
                  | (Fail err, w1) => (Fail err, w1)
                  | (Ok _, w1) =>
                      outputOneFilePerList m container rest
                        (log_Printf (doneLine m filename) w1)
                  end
              end
          end
      end
  end.

Definition Output (m : maxmindMMDBOut) (container : Container) (w : World)
  : result unit * World :=
  match MkdirAll_err os (OutputDir m) with
  | Some err => (Fail err, w)
  | None =>
      let list := filterAndSortList m container in
      if OneFilePerList m then outputOneFilePerList m container list w
      else outputSingleFile m container list w
  end.

(** The path of the file written for a label in Per-label mode. *)
Definition labelPath (m : maxmindMMDBOut) (name : string) : string :=
  Join (OutputDir m) (ToLower name +:+ ".mmdb").

(** *** The Selector over a store of slices

    The same function once more, with the backing arrays of the [[]string]
    slices kept in a store, to see what [filterAndSortList] writes:
    [m.Want] and [m.Exclude] live at two addresses, [make] takes a fresh
    address, [append] and [slices.Sort] write through the address of the
    slice they are given, and [range] reads the element at each index when
    the loop gets there. *)
Abbreviation Store := (gmap nat (list string)).

Definition readAt (σ : Store) (a : nat) : list string := default [] (σ !! a).

Definition make (σ : Store) : nat * Store :=
  let a := fresh (dom σ) in (a, <[a := []]> σ).

Definition appendAt (a : nat) (x : string) (σ : Store) : Store :=
  <[a := readAt σ a ++ [x]]> σ.

Definition sortAt (a : nat) (σ : Store) : Store :=
  <[a := slices_Sort (readAt σ a)]> σ.

Definition filterAndSortList_store (wantAt excludeAt : nat)
           (container : Container) (σ : Store) : nat * Store :=
  let excludeMap :=
    foldl (fun mp i =>
             match readAt σ excludeAt !! i with
             | Some exclude =>
                 let exclude := ToUpper (TrimSpace exclude) in
                 if decide (exclude <> "") then <[exclude := true]> mp else mp
             | None => mp
             end)
          (∅ : gmap string bool) (seq 0 (length (readAt σ excludeAt))) in
  let '(wantList, σ1) := make σ in
  let σ2 :=
    foldl (fun σ' i =>
             match readAt σ' wantAt !! i with
             | Some want =>
                 let want := ToUpper (TrimSpace want) in
                 if bool_decide (want <> "") && negb (mapGet excludeMap want)
                 then appendAt wantList want σ' else σ'
             | None => σ'
             end)
          σ1 (seq 0 (length (readAt σ wantAt))) in
  if decide (0 < length (readAt σ2 wantList))%nat then
    (wantList, sortAt wantList σ2)
  else
    let '(list, σ3) := make σ2 in
    let σ4 :=
      foldl (fun σ' entry =>
               let name := GetName entry in
               if mapGet excludeMap name then σ' else appendAt list name σ')
            σ3 (Loop container) in
    (list, sortAt list σ4).


(** *** Vocabulary of the statements *)

(** What an accessor contributes in the default branch of
    [addEntryToWriter]: its prefixes, or nothing when it returned an
    error. *)
Definition prefixesOrNone (r : result IPSet) : list Prefix :=
  match r with
  | Ok set => Prefixes set
  | Fail _ => []
  end.

(** The Prefix Source keeps the families apart: the IPv4 accessor returns
    IPv4 prefixes only, the IPv6 accessor IPv6 prefixes only. *)
Definition familiesApart (entry : Entry) : Prop :=
  Forall (fun p => Is4 p = true) (prefixesOrNone (GetIPv4Set entry))
  /\ Forall (fun p => Is6 p = true) (prefixesOrNone (GetIPv6Set entry)).

(** The mode dispatch at the end of [Output]. *)
Definition outputList (m : maxmindMMDBOut) (container : Container)
           (list : list string) (w : World) : result unit * World :=
  if OneFilePerList m then outputOneFilePerList m container list w
  else outputSingleFile m container list w.

(** The networks of the overlap example, 10.0.0.0/8 and 10.1.0.0/16. *)
Definition net_10_8 : Prefix := MkPrefix (IPv4Addr 167772160) 8.
Definition net_10_1_16 : Prefix := MkPrefix (IPv4Addr 167837696) 16.

(** *** Construction and accessors *)

Definition typeMaxmindMMDBOut : string := "maxmindMMDB".
Definition descMaxmindMMDBOut : string :=
  "Convert data to MaxMind mmdb database format".

Definition defaultMMDBOutputName : string := "Country.mmdb".
(** [filepath.Join("./", "output", "mmdb")]: joining three elements is
    joining the first two and then the third. *)
Definition defaultMMDBOutputDir : string := Join (Join "./" "output") "mmdb".

(** [json.Unmarshal(data, &tmp)] on the zero [tmp]: the decoded struct, or
    the decoder's error. *)
Variable json_Unmarshal : string -> result tmpArgs.

Definition newMaxmindMMDBOut (action : string) (data : string)
  : result maxmindMMDBOut :=
  tmp ← (if decide (0 < String.length data)%nat then json_Unmarshal data
         else Ok tmpZero);
  let outputName :=
    if decide (tmpOutputName tmp = "") then defaultMMDBOutputName
    else tmpOutputName tmp in
  let outputDir :=
    if decide (tmpOutputDir tmp = "") then defaultMMDBOutputDir
    else tmpOutputDir tmp in
  Ok (MkOut typeMaxmindMMDBOut action descMaxmindMMDBOut outputName outputDir
        (tmpWant tmp) (tmpExclude tmp) (tmpOneFilePerList tmp)
        (tmpOnlyIPType tmp)).

Definition GetType (m : maxmindMMDBOut) : string := Type_ m.
Definition GetAction (m : maxmindMMDBOut) : string := Action m.
Definition GetDescription (m : maxmindMMDBOut) : string := Description m.

(** *** Vocabulary of the further statements *)

(** The configuration with another [OnlyIPType]. *)
Definition withOnlyIPType (ipType : string) (m : maxmindMMDBOut) : maxmindMMDBOut :=
  MkOut (Type_ m) (Action m) (Description m) (OutputName m) (OutputDir m)
        (Want m) (Exclude m) (OneFilePerList m) ipType.

(** The network lies in a tree of the given IP version and contains the
    address: the network's path starts the address's path. *)
Definition covers (ipVersion : Z) (a : Addr) (network : Prefix) : bool :=
  match mmdbwriter.network_path ipVersion network,
        mmdbwriter.addr_path ipVersion a with
  | Ok path, Ok full => bool_decide (take (length path) full = path)
  | _, _ => false
  end.

(** One of the prefixes that [addEntryToWriter] takes from the entry
    contains the address. *)
Definition entryCovers (m : maxmindMMDBOut) (ipVersion : Z) (a : Addr)
           (entry : Entry) : bool :=
  match entryPrefixes m entry with
  | Ok prefixes => existsb (covers ipVersion a) prefixes
  | Fail _ => false
  end.

(** The record of the last label of the list whose entry contains the
    address; [before] when there is none. *)
Definition resolve (m : maxmindMMDBOut) (container : Container) (ipVersion : Z)
           (a : Addr) (list : list string) (before : option DataType)
  : option DataType :=
  foldl (fun found name =>
           match GetEntry container name with
           | Some entry =>
               if entryCovers m ipVersion a entry
               then Some (countryRecord name) else found
           | None => found
           end)
        before list.

(** The line that a successful Per-label run logs for a label. *)
Definition labelLine (m : maxmindMMDBOut) (container : Container) (name : string)
  : string :=
  match GetEntry container name with
  | None => notFoundLine name
  | Some _ => doneLine m (ToLower name +:+ ".mmdb")
  end.

(** *** The command line ([main.go]) *)

(** [strings.Split(s, ",")]: the pieces between the commas; a string
    without comma is its only piece. *)
Fixpoint Split_comma (s : string) : list string :=
  match s with
  | EmptyString => [EmptyString]
  | String c s' =>
      if decide (c = ","%char) then EmptyString :: Split_comma s'
      else match Split_comma s' with
           | piece :: pieces => String c piece :: pieces
           | [] => [String c EmptyString]
           end
  end.

(** [strings.HasSuffix] and [strings.TrimSuffix], byte by byte. *)
Definition HasSuffix (s suffix : string) : bool :=
  String.prefix (String.rev suffix) (String.rev s).

Definition TrimSuffix (s suffix : string) : string :=
  if HasSuffix s suffix
  then String.substring 0 (String.length s - String.length suffix) s
  else s.

(** [filepath.Base] and [filepath.Ext]. *)
Variables (Base Ext : string -> string).

(** The input arguments of the quick conversion. *)
Definition inputArgsOf (f : Flags) : gmap string value :=
  let inputArgs : gmap string value := ∅ in
  let inputArgs :=
    if decide (ToLower (flag_input f) = "text") then
      if decide (flag_inputName f <> "") then
        <["uri" := VString (flag_inputFile f)]>
          (<["name" := VString (flag_inputName f)]> inputArgs)
      else
        <["uri" := VString (flag_inputFile f)]>
          (<["name" := VString (TrimSuffix (Base (flag_inputFile f))
                                           (Ext (flag_inputFile f)))]> inputArgs)
    else <["uri" := VString (flag_inputFile f)]> inputArgs in
  let inputArgs :=
    if decide (flag_onlyIPType f <> "")
    then <["onlyIPType" := VString (flag_onlyIPType f)]> inputArgs
    else inputArgs in
  if decide (flag_wantList f <> "")
  then <["wantedList" := VStrings (Split_comma (flag_wantList f))]> inputArgs
  else inputArgs.

(** The output arguments of the quick conversion. *)
Definition outputArgsOf (f : Flags) : gmap string value :=
  let outputArgs : gmap string value := ∅ in
  let outputArgs :=
    if decide (flag_outputFile f <> "") then
      if HasSuffix (flag_outputFile f) ".dat"
         || HasSuffix (flag_outputFile f) ".mmdb"
         || HasSuffix (flag_outputFile f) ".txt"
      then <["outputName" := VString (flag_outputFile f)]> outputArgs
      else <["outputDir" := VString (flag_outputFile f)]> outputArgs
    else outputArgs in
  let outputArgs :=
    if decide (flag_onlyIPType f <> "")
    then <["onlyIPType" := VString (flag_onlyIPType f)]> outputArgs
    else outputArgs in
  if decide (flag_wantList f <> "")
  then <["wantedList" := VStrings (Split_comma (flag_wantList f))]> outputArgs
  else outputArgs.

(** The complete configuration that [runQuickConversion] marshals. *)
Definition quickConfig (f : Flags) : value :=
  let inputConfig :=
    VMap (<["type" := VString (flag_input f)]>
            (<["action" := VString "add"]>
               (<["args" := VMap (inputArgsOf f)]> ∅))) in
  let outputConfig :=
    VMap (<["type" := VString (flag_output f)]>
            (<["action" := VString "output"]>
               (<["args" := VMap (outputArgsOf f)]> ∅))) in
  VMap (<["input" := VList [inputConfig]]>
          (<["output" := VList [outputConfig]]> ∅)).

Variable lib : Lib.
(** [json.Marshal] of a configuration. *)
Variable json_Marshal : value -> result string.

Definition newline : string := String (ascii_of_nat 10) "".

Definition runQuickConversion (f : Flags) : list event * result unit :=
  if decide (flag_input f = "")
  then ([], Fail (Err "input format is required (use -input)"))
  else if decide (flag_inputFile f = "")
  then ([], Fail (Err "input file is required (use -inputFile)"))
  else if decide (flag_output f = "")
  then ([], Fail (Err "output format is required (use -output)"))
  else
    match NewInstance_err lib with
    | Some err => ([EvNewInstance], Fail err)
    | None =>
        match json_Marshal (quickConfig f) with
        | Fail err => ([EvNewInstance], Fail err)
        | Ok configBytes =>
            match InitConfigFromBytes_err lib configBytes with
            | Some err =>
                ([EvNewInstance; EvInitConfigFromBytes configBytes], Fail err)
            | None =>
                let converting :=
                  EvPrint ("Converting from " +:+ flag_input f +:+ " ("
                           +:+ flag_inputFile f +:+ ") to " +:+ flag_output f
                           +:+ " format..." +:+ newline) in
                match Run_err lib (FromBytes configBytes) with
                | Some err =>
                    ([EvNewInstance; EvInitConfigFromBytes configBytes;
                      converting; EvRun], Fail err)
                | None =>
                    ([EvNewInstance; EvInitConfigFromBytes configBytes;
                      converting; EvRun;
                      EvPrint ("Conversion completed successfully!" +:+ newline)],
                     Ok tt)
                end
            end
        end
    end.

(** [main] after [flag.Parse]: what happened, and the error handed to
    [log.Fatal], if any. *)
Definition main (f : Flags) : list event * option error :=
  if flag_l f then
    ([EvListInputConverter; EvPrint newline; EvListOutputConverter], None)
  else if bool_decide (flag_input f <> "") || bool_decide (flag_output f <> "") then
    match runQuickConversion f with
    | (events, Fail err) => (events, Some err)
    | (events, Ok _) => (events, None)
    end
  else
    match NewInstance_err lib with
    | Some err => ([EvNewInstance], Some err)
    | None =>
        match InitConfig_err lib (flag_c f) with
        | Some err => ([EvNewInstance; EvInitConfig (flag_c f)], Some err)
        | None =>
            match Run_err lib (FromFile (flag_c f)) with
            | Some err => ([EvNewInstance; EvInitConfig (flag_c f); EvRun], Some err)
            | None => ([EvNewInstance; EvInitConfig (flag_c f); EvRun], None)
            end
        end
    end.

(** ** Sorting facts *)

Lemma slices_Sort_sorted (l : list string) : StronglySorted String.le (slices_Sort l).
Proof. apply StronglySorted_merge_sort; apply _. Qed.

Lemma slices_Sort_perm (l : list string) : slices_Sort l ≡ₚ l.
Proof. apply merge_sort_Permutation. Qed.

Lemma slices_Sort_unique (l1 l2 : list string) :
  l1 ≡ₚ l2 -> slices_Sort l1 = slices_Sort l2.
Proof.
  intros Hp. apply (StronglySorted_unique String.le).
  - apply slices_Sort_sorted.
  - apply slices_Sort_sorted.
  - by rewrite !slices_Sort_perm.
Qed.

(** *** Loop invariants *)

Lemma excludeMapOf_acc (excl : list string) (mp : gmap string bool) (k : string) :
  mapGet (foldl (fun mp exclude =>
           let exclude := ToUpper (TrimSpace exclude) in
           if decide (exclude <> "") then <[exclude := true]> mp else mp)
        mp excl) k = true
  <-> mapGet mp k = true \/ k ∈ normalized excl.
Proof.
  revert mp. induction excl as [|x excl IH]; intros mp; simpl.
  - unfold normalized. simpl. split; [by left|].
    intros [H|H]; [done | by apply elem_of_nil in H].
  - rewrite IH. unfold normalized. simpl. rewrite filter_cons.
    destruct (decide (ToUpper (TrimSpace x) <> "")) as [Hne|He]; [|done].
    rewrite elem_of_cons. unfold mapGet.
    destruct (decide (ToUpper (TrimSpace x) = k)) as [->|Hk].
    + rewrite lookup_insert_eq. simpl. split.
      * intros _. right. by left.
      * intros _. by left.
    + rewrite lookup_insert_ne by done. split.
      * intros [H|H]; [by left | right; by right].
      * intros [H|[H|H]]; [by left | congruence | by right].
Qed.

Lemma excludeMapOf_spec (excl : list string) (k : string) :
  mapGet (excludeMapOf excl) k = true <-> k ∈ normalized excl.
Proof.
  unfold excludeMapOf. rewrite excludeMapOf_acc. unfold mapGet.
  rewrite lookup_empty. simpl. split; [intros [?|?]; done | by right].
Qed.

Lemma excludeMapOf_false (excl : list string) (k : string) :
  mapGet (excludeMapOf excl) k = false <-> k ∉ normalized excl.
Proof.
  rewrite <- excludeMapOf_spec. destruct (mapGet _ k); split; congruence.
Qed.

Lemma wantListOf_acc (mp : gmap string bool) (want acc : list string) :
  foldl (fun wantList want =>
           let want := ToUpper (TrimSpace want) in
           if bool_decide (want <> "") && negb (mapGet mp want)
           then wantList ++ [want] else wantList)
        acc want
  = acc ++ filter (fun s => mapGet mp s = false) (normalized want).
Proof.
  revert acc. induction want as [|x want IH]; intros acc; simpl.
  - by rewrite app_nil_r.
  - rewrite IH. unfold normalized. simpl. rewrite filter_cons.
    destruct (decide (ToUpper (TrimSpace x) <> "")) as [Hne|He]; simpl.
    + rewrite bool_decide_eq_true_2 by done. simpl. rewrite filter_cons.
      destruct (mapGet mp (ToUpper (TrimSpace x))) eqn:Hg; simpl.
      * done.
      * by rewrite <- app_assoc.
    + by rewrite bool_decide_eq_false_2 by done.
Qed.

Lemma wantListOf_spec (excl want : list string) :
  wantListOf (excludeMapOf excl) want
  = minus (normalized want) (normalized excl).
Proof.
  unfold wantListOf. rewrite wantListOf_acc. simpl. unfold minus.
  apply list_filter_iff. intros s. apply excludeMapOf_false.
Qed.

Lemma loopListOf_acc (mp : gmap string bool) (entries : list Entry)
      (acc : list string) :
  foldl (fun list entry =>
           let name := GetName entry in
           if mapGet mp name then list else list ++ [name])
        acc entries
  = acc ++ filter (fun s => mapGet mp s = false) (GetName <$> entries).
Proof.
  revert acc. induction entries as [|e entries IH]; intros acc; simpl.
  - by rewrite app_nil_r.
  - rewrite IH, filter_cons. destruct (mapGet mp (GetName e)); simpl.
    + done.
    + by rewrite <- app_assoc.
Qed.

Lemma loopListOf_spec (excl : list string) (entries : list Entry) :
  loopListOf (excludeMapOf excl) entries
  = minus (GetName <$> entries) (normalized excl).
Proof.
  unfold loopListOf. rewrite loopListOf_acc. simpl. unfold minus.
  apply list_filter_iff. intros s. apply excludeMapOf_false.
Qed.

(** The selector in closed form. *)
Lemma filterAndSortList_unfold (m : maxmindMMDBOut) (c : Container) :
  filterAndSortList m c =
  if decide (minus (normalized (Want m)) (normalized (Exclude m)) <> [])
  then slices_Sort (minus (normalized (Want m)) (normalized (Exclude m)))
  else slices_Sort (minus (GetName <$> Loop c) (normalized (Exclude m))).
Proof.
  unfold filterAndSortList. rewrite wantListOf_spec, loopListOf_spec.
  destruct (minus (normalized (Want m)) (normalized (Exclude m))) as [|x l].
  - rewrite decide_False by (simpl; lia). by rewrite decide_False by auto.
  - rewrite decide_True by (simpl; lia). by rewrite decide_True by done.
Qed.

(** ** Properties of the Selector *)

(** C2 (as amended): when at least one normalised want entry survives
    exclusion, the selector returns the normalised want entries that are
    not excluded, every occurrence kept, in ascending byte-wise order; when
    the normalised want-list is empty, it returns the name of every
    container entry that is not excluded, in ascending order. *)
Theorem filterAndSortList_selects (m : maxmindMMDBOut) (c : Container) :
  (minus (normalized (Want m)) (normalized (Exclude m)) <> [] ->
     StronglySorted String.le (filterAndSortList m c) /\
     filterAndSortList m c ≡ₚ minus (normalized (Want m)) (normalized (Exclude m)))
  /\
  (normalized (Want m) = [] ->
     StronglySorted String.le (filterAndSortList m c) /\
     filterAndSortList m c ≡ₚ minus (GetName <$> Loop c) (normalized (Exclude m))).
Proof.
  rewrite filterAndSortList_unfold. split.
  - intros Hne. rewrite decide_True by done.
    split; [apply slices_Sort_sorted | apply slices_Sort_perm].
  - intros Hnil. destruct (decide _) as [Hd|_].
    { exfalso. apply Hd. by rewrite Hnil. }
    split; [apply slices_Sort_sorted | apply slices_Sort_perm].
Qed.

(** C9: with an empty normalised want-list, a container entry is selected
    exactly when its name, as the container returns it, is none of the
    normalised exclude entries; such an entry's name is in the result
    unchanged. *)
Theorem filterAndSortList_raw_names (m : maxmindMMDBOut) (c : Container) :
  normalized (Want m) = [] ->
  (forall name, name ∈ filterAndSortList m c <->
                (exists e, e ∈ Loop c /\ GetName e = name)
                /\ name ∉ normalized (Exclude m))
  /\
  (forall e, e ∈ Loop c ->
             (forall x, x ∈ normalized (Exclude m) -> GetName e <> x) ->
             GetName e ∈ filterAndSortList m c).
Proof.
  intros Hnil.
  assert (Hin : forall name, name ∈ filterAndSortList m c <->
                (exists e, e ∈ Loop c /\ GetName e = name)
                /\ name ∉ normalized (Exclude m)).
  { intros name. rewrite filterAndSortList_unfold.
    destruct (decide _) as [Hd|_].
    { exfalso. apply Hd. by rewrite Hnil. }
    rewrite slices_Sort_perm. unfold minus.
    rewrite list_elem_of_filter, list_elem_of_fmap. split.
    - intros [Hx [e [-> He]]]. split; [exists e; done | done].
    - intros [[e [He <-]] Hx]. split; [done | exists e; done]. }
  split; [exact Hin|].
  intros e He Hx. apply Hin. split; [exists e; done|].
  intros Habs. by apply (Hx _ Habs).
Qed.


(** *** The store model agrees with the function and writes only fresh
    addresses *)

Lemma foldl_seq_lookup {A B} (f : B -> A -> B) (l1 l2 : list A) (b : B) :
  foldl (fun acc i => match (l1 ++ l2) !! i with
                      | Some x => f acc x
                      | None => acc
                      end) b (seq (length l1) (length l2))
  = foldl f b l2.
Proof.
  revert l1 b. induction l2 as [|x l2 IH]; intros l1 b; [done|].
  cbn [length seq foldl]. rewrite list_lookup_middle by done.
  specialize (IH (l1 ++ [x]) (f b x)).
  rewrite <- app_assoc, length_app in IH. cbn in IH.
  by replace (length l1 + 1)%nat with (S (length l1)) in IH by lia.
Qed.

Lemma readAt_insert_eq (σ : Store) (a : nat) (l : list string) :
  readAt (<[a := l]> σ) a = l.
Proof. unfold readAt. by rewrite lookup_insert_eq. Qed.

Lemma readAt_insert_ne (σ : Store) (a b : nat) (l : list string) :
  a <> b -> readAt (<[a := l]> σ) b = readAt σ b.
Proof. intros. unfold readAt. by rewrite lookup_insert_ne. Qed.

Lemma appendAt_insert (σ : Store) (a : nat) (l : list string) (x : string) :
  appendAt a x (<[a := l]> σ) = <[a := l ++ [x]]> σ.
Proof. unfold appendAt. by rewrite readAt_insert_eq, insert_insert_eq. Qed.

Lemma store_want_loop (σ : Store) (wl wantAt : nat) (mp : gmap string bool)
      (l1 l2 acc : list string) :
  wl <> wantAt ->
  readAt σ wantAt = l1 ++ l2 ->
  foldl (fun σ' i =>
           match readAt σ' wantAt !! i with
           | Some want =>
               let want := ToUpper (TrimSpace want) in
               if bool_decide (want <> "") && negb (mapGet mp want)
               then appendAt wl want σ' else σ'
           | None => σ'
           end)
        (<[wl := acc]> σ) (seq (length l1) (length l2))
  = <[wl := foldl (fun wantList want =>
                     let want := ToUpper (TrimSpace want) in
                     if bool_decide (want <> "") && negb (mapGet mp want)
                     then wantList ++ [want] else wantList) acc l2]> σ.
Proof.
  intros Hne. revert l1 acc. induction l2 as [|x l2 IH]; intros l1 acc Hr; [done|].
  cbn [length seq foldl].
  rewrite readAt_insert_ne, Hr, list_lookup_middle by done.
  specialize (IH (l1 ++ [x])). rewrite <- app_assoc, length_app in IH.
  cbn in IH. replace (length l1 + 1)%nat with (S (length l1)) in IH by lia.
  cbn zeta.
  destruct (bool_decide (ToUpper (TrimSpace x) <> "")
            && negb (mapGet mp (ToUpper (TrimSpace x)))).
  - rewrite appendAt_insert. by apply IH.
  - by apply IH.
Qed.

Lemma store_entry_loop (σ : Store) (a : nat) (mp : gmap string bool)
      (entries : list Entry) (acc : list string) :
  foldl (fun σ' entry =>
           let name := GetName entry in
           if mapGet mp name then σ' else appendAt a name σ')
        (<[a := acc]> σ) entries
  = <[a := foldl (fun list entry =>
                    let name := GetName entry in
                    if mapGet mp name then list else list ++ [name])
                 acc entries]> σ.
Proof.
  revert acc. induction entries as [|e entries IH]; intros acc; [done|].
  cbn [foldl]. cbn zeta. destruct (mapGet mp (GetName e)).
  - apply IH.
  - rewrite appendAt_insert. apply IH.
Qed.

Lemma filterAndSortList_store_run (m : maxmindMMDBOut) (c : Container)
      (σ : Store) (wantAt excludeAt : nat) :
  σ !! wantAt = Some (Want m) ->
  σ !! excludeAt = Some (Exclude m) ->
  exists r σ',
    filterAndSortList_store wantAt excludeAt c σ = (r, σ')
    /\ σ' !! r = Some (filterAndSortList m c)
    /\ (r ∉ dom σ)
    /\ forall a, a ∈ dom σ -> σ' !! a = σ !! a.
Proof.
  intros Hw He.
  assert (Hrw : readAt σ wantAt = Want m) by (unfold readAt; by rewrite Hw).
  assert (Hre : readAt σ excludeAt = Exclude m) by (unfold readAt; by rewrite He).
  unfold filterAndSortList_store, filterAndSortList, make.
  rewrite Hre, Hrw.
  pose proof (foldl_seq_lookup
    (fun (mp : gmap string bool) exclude =>
       let exclude := ToUpper (TrimSpace exclude) in
       if decide (exclude <> "") then <[exclude := true]> mp else mp)
    [] (Exclude m) ∅) as Hex.
  cbn [app length] in Hex. rewrite Hex. clear Hex.
  fold (excludeMapOf (Exclude m)).
  set (wl := fresh (dom σ)).
  assert (Hwl : wl ∉ dom σ) by apply is_fresh.
  assert (Hwlne : wl <> wantAt).
  { intros ->. apply Hwl. apply elem_of_dom. eauto. }
  pose proof (store_want_loop σ wl wantAt (excludeMapOf (Exclude m))
                [] (Want m) [] Hwlne Hrw) as Hloop.
  cbn [length] in Hloop. rewrite Hloop. clear Hloop.
  fold (wantListOf (excludeMapOf (Exclude m)) (Want m)).
  rewrite readAt_insert_eq.
  destruct (decide (0 < length (wantListOf (excludeMapOf (Exclude m)) (Want m)))%nat)
    as [Hpos|Hzero].
  - eexists _, _. split; [reflexivity|].
    unfold sortAt. rewrite readAt_insert_eq, insert_insert_eq.
    split; [by rewrite lookup_insert_eq|]. split; [done|].
    intros a Ha. rewrite lookup_insert_ne; [done|]. by intros ->.
  - assert (Hnil : wantListOf (excludeMapOf (Exclude m)) (Want m) = []).
    { destruct (wantListOf _ _); [done | cbn in Hzero; lia]. }
    rewrite Hnil.
    set (σ2 := <[wl := []]> σ).
    set (a := fresh (dom σ2)).
    assert (Ha : a ∉ dom σ2) by apply is_fresh.
    assert (Ha' : (a ∉ dom σ) /\ a <> wl).
    { unfold σ2 in Ha. rewrite dom_insert_L in Ha. set_solver. }
    destruct Ha' as [Ha1 Ha2].
    rewrite store_entry_loop.
    fold (loopListOf (excludeMapOf (Exclude m)) (Loop c)).
    eexists _, _. split; [reflexivity|].
    unfold sortAt. rewrite readAt_insert_eq, insert_insert_eq.
    split; [by rewrite lookup_insert_eq|]. split; [done|].
    intros b Hb. rewrite lookup_insert_ne by (by intros ->).
    unfold σ2. rewrite lookup_insert_ne; [done|]. by intros ->.
Qed.

(** C8: the selector's output is sorted; it is fixed by the configuration
    and the set of entries the container yields, whatever the order in
    which [Loop] yields them; and run over a store that holds [m.Want] and
    [m.Exclude], it returns its result at a fresh address and leaves every
    address that was allocated before the call as it was. *)
Theorem filterAndSortList_deterministic_pure
        (m : maxmindMMDBOut) (c : Container) :
  StronglySorted String.le (filterAndSortList m c)
  /\ (forall c', Loop c ≡ₚ Loop c' ->
                 filterAndSortList m c' = filterAndSortList m c)
  /\ (forall (σ : Store) (wantAt excludeAt : nat),
        σ !! wantAt = Some (Want m) ->
        σ !! excludeAt = Some (Exclude m) ->
        let '(r, σ') := filterAndSortList_store wantAt excludeAt c σ in
        σ' !! r = Some (filterAndSortList m c)
        /\ (r ∉ dom σ)
        /\ forall a, a ∈ dom σ -> σ' !! a = σ !! a).
Proof.
  split; [|split].
  - rewrite filterAndSortList_unfold.
    destruct (decide _); apply slices_Sort_sorted.
  - intros c' Hp. rewrite !filterAndSortList_unfold.
    destruct (decide _); [done|].
    apply slices_Sort_unique. unfold minus. by rewrite Hp.
  - intros σ wantAt excludeAt Hw He.
    destruct (filterAndSortList_store_run m c σ wantAt excludeAt Hw He)
      as [r [σ' [-> H]]].
    exact H.
Qed.


(** ** The trie: last write wins *)

Lemma lookup_children (b : bool) (bits : list bool) (n : mmdbwriter.node) :
  mmdbwriter.lookup_bits (b :: bits) n
  = mmdbwriter.lookup_bits bits
      (if b then (mmdbwriter.children n).2 else (mmdbwriter.children n).1).
Proof. destruct n, b; simpl; try done; by destruct bits. Qed.

(** Inserting at a path changes the answer for the addresses under that
    path, and for no other. *)
Lemma lookup_insert_bits (p a : list bool) (v : DataType) (n : mmdbwriter.node) :
  (length p <= length a)%nat ->
  mmdbwriter.lookup_bits a (mmdbwriter.insert_bits p v n)
  = if decide (take (length p) a = p) then Some v
    else mmdbwriter.lookup_bits a n.
Proof.
  revert a n. induction p as [|b p IH]; intros a n Hlen.
  - cbn [mmdbwriter.insert_bits length]. rewrite take_0.
    rewrite decide_True by done. by destruct a.
  - destruct a as [|c a]; [simpl in Hlen; lia|].
    simpl in Hlen. assert (Hlen' : (length p <= length a)%nat) by lia.
    cbn [mmdbwriter.insert_bits length take].
    rewrite (lookup_children c a n).
    destruct (mmdbwriter.children n) as [l r]. cbn [fst snd].
    destruct b, c; cbn [mmdbwriter.lookup_bits].
    + rewrite IH by done.
      destruct (decide (take (length p) a = p)) as [->|Hn].
      * by rewrite decide_True.
      * rewrite decide_False; [done | congruence].
    + rewrite decide_False; [done | congruence].
    + rewrite decide_False; [done | congruence].
    + rewrite IH by done.
      destruct (decide (take (length p) a = p)) as [->|Hn].
      * by rewrite decide_True.
      * rewrite decide_False; [done | congruence].
Qed.

Lemma length_addr_bits (w : nat) (a : Z) : length (mmdbwriter.addr_bits w a) = w.
Proof. unfold mmdbwriter.addr_bits. by rewrite length_fmap, length_seq. Qed.

Lemma length_addr_path (v : Z) (a : Addr) (path : list bool) :
  mmdbwriter.addr_path v a = Ok path ->
  length path = if decide (v = 4%Z) then 32%nat else 128%nat.
Proof.
  unfold mmdbwriter.addr_path. destruct a as [x|x]; destruct (decide (v = 4%Z));
    intros H; inversion H; subst;
    rewrite ?length_app, ?length_replicate, ?length_addr_bits; done.
Qed.

Lemma length_network_path (v : Z) (net : Prefix) (path : list bool) :
  mmdbwriter.network_path v net = Ok path ->
  (length path <= if decide (v = 4%Z) then 32 else 128)%nat.
Proof.
  unfold mmdbwriter.network_path. destruct (decide _); [|done].
  destruct (mmdbwriter.addr_path v (pAddr net)) as [full|] eqn:Hfull; [|done].
  cbn. intros [= <-]. apply length_addr_path in Hfull.
  rewrite length_take. lia.
Qed.

(** A network covers an address of a tree when the network's path starts
    the address's path. *)
Lemma Lookup_Insert (t t' : mmdbwriter.Tree) (net : Prefix) (v : DataType) (a : Addr) :
  mmdbwriter.Insert net v t = Ok t' ->
  mmdbwriter.opts t' = mmdbwriter.opts t /\
  exists path, mmdbwriter.network_path (mmdbwriter.IPVersion (mmdbwriter.opts t)) net = Ok path /\
    mmdbwriter.Lookup t' a =
    match mmdbwriter.addr_path (mmdbwriter.IPVersion (mmdbwriter.opts t)) a with
    | Ok full => if decide (take (length path) full = path) then Some v
                 else mmdbwriter.Lookup t a
    | Fail _ => None
    end.
Proof.
  unfold mmdbwriter.Insert.
  destruct (mmdbwriter.network_path _ net) as [path|] eqn:Hp; [|done].
  cbn. intros [= <-]. split; [done|]. exists path. split; [done|].
  unfold mmdbwriter.Lookup. cbn [mmdbwriter.opts mmdbwriter.root].
  destruct (mmdbwriter.addr_path _ a) as [full|] eqn:Hfull; [|done].
  apply lookup_insert_bits.
  apply length_network_path in Hp. apply length_addr_path in Hfull.
  rewrite Hfull. done.
Qed.

Lemma Lookup_Insert_cases (t t' : mmdbwriter.Tree) (net : Prefix) (v : DataType) (a : Addr) :
  mmdbwriter.Insert net v t = Ok t' ->
  mmdbwriter.Lookup t' a = mmdbwriter.Lookup t a \/ mmdbwriter.Lookup t' a = Some v.
Proof.
  intros H. destruct (Lookup_Insert t t' net v a H) as [_ [path [_ ->]]].
  unfold mmdbwriter.Lookup.
  destruct (mmdbwriter.addr_path _ a); [|by left].
  destruct (decide _); [by right | by left].
Qed.

Lemma insertPrefixes_opts (prefixes : list Prefix) (record : DataType)
      (writer writer' : mmdbwriter.Tree) :
  insertPrefixes writer prefixes record = Ok writer' ->
  mmdbwriter.opts writer' = mmdbwriter.opts writer.
Proof.
  revert writer. induction prefixes as [|p ps IH]; intros writer; simpl.
  - by intros [= <-].
  - destruct (mmdbwriter.Insert (PrefixIPNet p) record writer) as [w1|] eqn:Hi; [|done].
    cbn. intros H. rewrite (IH _ H).
    by destruct (Lookup_Insert _ _ _ _ (IPv4Addr 0) Hi) as [-> _].
Qed.

Lemma insertPrefixes_Lookup (prefixes : list Prefix) (record : DataType)
      (writer writer' : mmdbwriter.Tree) (a : Addr) :
  insertPrefixes writer prefixes record = Ok writer' ->
  mmdbwriter.Lookup writer' a = mmdbwriter.Lookup writer a
  \/ mmdbwriter.Lookup writer' a = Some record.
Proof.
  revert writer. induction prefixes as [|p ps IH]; intros writer; simpl.
  - intros [= <-]. by left.
  - destruct (mmdbwriter.Insert (PrefixIPNet p) record writer) as [w1|] eqn:Hi; [|done].
    cbn. intros H. destruct (IH _ H) as [->| ->]; [|by right].
    exact (Lookup_Insert_cases _ _ _ _ a Hi).
Qed.


(** ** IPv4 networks as address ranges *)

Lemma take_addr_bits (n w : nat) (x : Z) :
  (n <= w)%nat ->
  take n (mmdbwriter.addr_bits w x)
  = (fun i => Z.testbit x (Z.of_nat (w - 1 - i)%nat)) <$> seq 0 n.
Proof.
  intros Hn. unfold mmdbwriter.addr_bits.
  rewrite <- fmap_take, take_seq. by rewrite Nat.min_l.
Qed.

(** Two [w]-bit numbers share their [n] leading bits exactly when they
    agree after the [w - n] trailing bits are dropped. *)
Lemma take_addr_bits_eq (n w : nat) (x y : Z) :
  (n <= w)%nat ->
  (0 <= x < 2 ^ Z.of_nat w)%Z -> (0 <= y < 2 ^ Z.of_nat w)%Z ->
  take n (mmdbwriter.addr_bits w x) = take n (mmdbwriter.addr_bits w y)
  <-> (x / 2 ^ Z.of_nat (w - n) = y / 2 ^ Z.of_nat (w - n))%Z.
Proof.
  intros Hn Hx Hy. rewrite !take_addr_bits by done. split.
  - intros Heq. apply Z.bits_inj'. intros k Hk.
    rewrite !Z.div_pow2_bits by lia.
    destruct (decide (k < Z.of_nat n)%Z) as [Hlt|Hge].
    + apply (f_equal (fun l => l !! (n - 1 - Z.to_nat k)%nat)) in Heq.
      rewrite !list_lookup_fmap, !lookup_seq_lt in Heq by lia.
      cbn in Heq. injection Heq as Heq.
      replace (Z.of_nat (w - 1 - (n - 1 - Z.to_nat k)))
        with (k + Z.of_nat (w - n))%Z in Heq by lia.
      exact Heq.
    + rewrite <- (Z.mod_small x (2 ^ Z.of_nat w)) by lia.
      rewrite <- (Z.mod_small y (2 ^ Z.of_nat w)) by lia.
      rewrite !Z.mod_pow2_bits_high by lia. done.
  - intros Heq. apply list_fmap_ext. intros i j Hj.
    apply lookup_seq in Hj as [-> Hj]. cbn.
    replace (Z.of_nat (w - 1 - i)) with (Z.of_nat (n - 1 - i) + Z.of_nat (w - n))%Z
      by lia.
    rewrite <- !Z.div_pow2_bits by lia. by rewrite Heq.
Qed.

Lemma Insert_v4 (t : mmdbwriter.Tree) (y : Z) (n : nat) (v : DataType) :
  (n <= 32)%nat ->
  exists path,
    mmdbwriter.Insert (MkPrefix (IPv4Addr y) n) v t
    = Ok (mmdbwriter.MkTree (mmdbwriter.opts t)
            (mmdbwriter.insert_bits path v (mmdbwriter.root t)))
    /\ (forall x, mmdbwriter.addr_path (mmdbwriter.IPVersion (mmdbwriter.opts t))
                    (IPv4Addr x)
                  = Ok ((if decide (mmdbwriter.IPVersion (mmdbwriter.opts t) = 4%Z)
                         then [] else replicate 96 false)
                        ++ mmdbwriter.addr_bits 32 x))
    /\ path = (if decide (mmdbwriter.IPVersion (mmdbwriter.opts t) = 4%Z)
               then [] else replicate 96 false)
              ++ take n (mmdbwriter.addr_bits 32 y).
Proof.
  intros Hn. unfold mmdbwriter.Insert, mmdbwriter.network_path.
  cbn [pAddr pBits mmdbwriter.addr_width mmdbwriter.addr_path].
  rewrite decide_True by done.
  destruct (decide (mmdbwriter.IPVersion (mmdbwriter.opts t) = 4%Z));
    unfold mbind, result_bind.
  - eexists. split; [reflexivity|]. split; [done|].
    rewrite length_addr_bits. cbn [app]. f_equal. lia.
  - eexists. split; [reflexivity|]. split; [done|].
    rewrite length_app, length_replicate, length_addr_bits.
    replace (96 + 32 - (32 - n))%nat with (length (replicate 96 false) + n)%nat
      by (rewrite length_replicate; lia).
    by rewrite take_app_add.
Qed.

(** After the insertion of an IPv4 network, an IPv4 address inside the
    network resolves to the new record and any other IPv4 address resolves
    as before. *)
Lemma Lookup_Insert_v4 (t t' : mmdbwriter.Tree) (x y : Z) (n : nat) (v : DataType) :
  (n <= 32)%nat ->
  (0 <= x < 2 ^ 32)%Z -> (0 <= y < 2 ^ 32)%Z ->
  mmdbwriter.Insert (MkPrefix (IPv4Addr y) n) v t = Ok t' ->
  mmdbwriter.Lookup t' (IPv4Addr x)
  = if decide (x / 2 ^ Z.of_nat (32 - n) = y / 2 ^ Z.of_nat (32 - n))%Z
    then Some v else mmdbwriter.Lookup t (IPv4Addr x).
Proof.
  intros Hn Hx Hy Hi.
  destruct (Insert_v4 t y n v Hn) as [path [Hi' [Hfull Hpath]]].
  rewrite Hi' in Hi. injection Hi as <-.
  unfold mmdbwriter.Lookup. cbn [mmdbwriter.opts mmdbwriter.root].
  rewrite Hfull.
  set (pad := if decide (mmdbwriter.IPVersion (mmdbwriter.opts t) = 4%Z)
              then [] else replicate 96 false) in *.
  assert (Hlen : length path = (length pad + n)%nat).
  { rewrite Hpath, length_app, length_take, length_addr_bits. lia. }
  rewrite lookup_insert_bits
    by (rewrite Hlen, length_app, length_addr_bits; lia).
  rewrite Hlen, take_app_add, Hpath.
  destruct (decide (x / 2 ^ Z.of_nat (32 - n) = y / 2 ^ Z.of_nat (32 - n))%Z)
    as [Heq|Hne].
  - rewrite decide_True; [done|]. f_equal.
    by apply (take_addr_bits_eq n 32 x y).
  - rewrite decide_False; [done|]. intros Habs. apply Hne.
    apply app_inv_head in Habs. by apply (take_addr_bits_eq n 32 x y).
Qed.

(** C3: the entry of label [la] holds 10.0.0.0/8, the entry of [lb] holds
    10.1.0.0/16, and the labels are processed in the order [la], [lb]:
    the loop succeeds, and in the resulting writer every IPv4 address of
    10.1.0.0/16 resolves to the record of [lb] and every other address of
    10.0.0.0/8 to the record of [la]. *)
Theorem overlap_last_write_wins
        (m : maxmindMMDBOut) (c : Container) (la lb : string) (ea eb : Entry)
        (writer : mmdbwriter.Tree) (w : World) :
  GetEntry c la = Some ea ->
  GetEntry c lb = Some eb ->
  entryPrefixes m ea = Ok [net_10_8] ->
  entryPrefixes m eb = Ok [net_10_1_16] ->
  exists writer',
    addEntries m c [la; lb] writer w = (Ok writer', w)
    /\ forall x : Z,
        (0 <= x < 2 ^ 32)%Z ->
        ((167837696 <= x < 167903232)%Z ->
           mmdbwriter.Lookup writer' (IPv4Addr x) = Some (countryRecord lb))
        /\ ((167772160 <= x < 184549376)%Z ->
            ~ (167837696 <= x < 167903232)%Z ->
            mmdbwriter.Lookup writer' (IPv4Addr x) = Some (countryRecord la)).
Proof.
  intros Ha Hb Hpa Hpb.
  destruct (Insert_v4 writer 167772160 8 (countryRecord la) ltac:(lia))
    as [p1 [Hi1 _]].
  set (t1 := mmdbwriter.MkTree (mmdbwriter.opts writer)
               (mmdbwriter.insert_bits p1 (countryRecord la) (mmdbwriter.root writer)))
    in *.
  destruct (Insert_v4 t1 167837696 16 (countryRecord lb) ltac:(lia))
    as [p2 [Hi2 _]].
  exists (mmdbwriter.MkTree (mmdbwriter.opts t1)
            (mmdbwriter.insert_bits p2 (countryRecord lb) (mmdbwriter.root t1))).
  split.
  - cbn [addEntries]. rewrite Ha, Hb. unfold addEntryToWriter.
    rewrite Hpa, Hpb. cbn [mbind result_bind insertPrefixes].
    unfold PrefixIPNet, net_10_8, net_10_1_16. rewrite Hi1. cbn.
    rewrite Hi2. cbn. reflexivity.
  - intros x Hx.
    rewrite (Lookup_Insert_v4 _ _ x 167837696 16 (countryRecord lb)
               ltac:(lia) Hx ltac:(lia) Hi2).
    rewrite (Lookup_Insert_v4 _ _ x 167772160 8 (countryRecord la)
               ltac:(lia) Hx ltac:(lia) Hi1).
    change (Z.of_nat (32 - 16)) with 16%Z.
    change (Z.of_nat (32 - 8)) with 24%Z.
    change (167837696 / 2 ^ 16)%Z with 2561%Z.
    change (167772160 / 2 ^ 24)%Z with 10%Z.
    change (2 ^ 16)%Z with 65536%Z. change (2 ^ 24)%Z with 16777216%Z.
    split.
    + intros Hin. rewrite decide_True; [done|].
      symmetry. apply Z.div_unique with (r := (x - 2561 * 65536)%Z); lia.
    + intros Hin Hout.
      rewrite decide_False.
      * rewrite decide_True; [done|].
        symmetry. apply Z.div_unique with (r := (x - 10 * 16777216)%Z); lia.
      * intros Habs. apply Hout.
        pose proof (Z.div_mod x 65536 ltac:(lia)) as Hdm.
        pose proof (Z.mod_pos_bound x 65536 ltac:(lia)) as Hmb.
        rewrite Habs in Hdm. lia.
Qed.

(** ** Inserting one entry *)

(** C4 (as amended): with [onlyIPType] set to ipv4 (to ipv6), an error of
    the entry's IPv4 (IPv6) accessor is returned to the caller; with
    [onlyIPType] unset, an accessor's error is not returned: that family
    contributes no prefix and the prefixes of the other family are
    inserted. *)
Theorem addEntryToWriter_accessor_errors
        (m : maxmindMMDBOut) (writer : mmdbwriter.Tree) (entry : Entry)
        (countryCode : string) :
  (OnlyIPType m = lib_IPv4 ->
     forall err, GetIPv4Set entry = Fail err ->
                 addEntryToWriter m writer entry countryCode = Fail err)
  /\ (OnlyIPType m = lib_IPv6 ->
        forall err, GetIPv6Set entry = Fail err ->
                    addEntryToWriter m writer entry countryCode = Fail err)
  /\ (OnlyIPType m <> lib_IPv4 -> OnlyIPType m <> lib_IPv6 ->
        addEntryToWriter m writer entry countryCode
        = insertPrefixes writer
            (prefixesOrNone (GetIPv4Set entry) ++ prefixesOrNone (GetIPv6Set entry))
            (countryRecord countryCode)).
Proof.
  unfold addEntryToWriter, entryPrefixes. split; [|split].
  - intros H4 err Herr. rewrite decide_True by done. by rewrite Herr.
  - intros H6 err Herr.
    rewrite decide_False by (rewrite H6; done).
    rewrite decide_True by done. by rewrite Herr.
  - intros H4 H6. rewrite !decide_False by done.
    destruct (GetIPv4Set entry), (GetIPv6Set entry); cbn;
      rewrite ?app_nil_r; done.
Qed.

(** C5: with [onlyIPType] ipv4, the writer is an IPv4 tree, every prefix
    handed to [Insert] is an IPv4 prefix, and the outcome is the one of the
    same entry with any other IPv6 accessor result: IPv6 prefixes are left
    out without an error.  Symmetrically for ipv6, where the writer is an
    IPv6 tree. *)
Theorem addEntryToWriter_family_filter
        (m : maxmindMMDBOut) (writer : mmdbwriter.Tree) (entry : Entry)
        (countryCode : string) :
  familiesApart entry ->
  (OnlyIPType m = lib_IPv4 ->
     (forall t, createWriter m = Ok t ->
                mmdbwriter.IPVersion (mmdbwriter.opts t) = 4%Z)
     /\ (forall prefixes, entryPrefixes m entry = Ok prefixes ->
                          Forall (fun p => Is6 p = false) prefixes)
     /\ (forall other6,
           addEntryToWriter m writer
             (MkEntry (GetName entry) (GetIPv4Set entry) other6) countryCode
           = addEntryToWriter m writer entry countryCode))
  /\ (OnlyIPType m = lib_IPv6 ->
        (forall t, createWriter m = Ok t ->
                   mmdbwriter.IPVersion (mmdbwriter.opts t) = 6%Z)
        /\ (forall prefixes, entryPrefixes m entry = Ok prefixes ->
                             Forall (fun p => Is4 p = false) prefixes)
        /\ (forall other4,
              addEntryToWriter m writer
                (MkEntry (GetName entry) other4 (GetIPv6Set entry)) countryCode
              = addEntryToWriter m writer entry countryCode)).
Proof.
  intros [Hv4 Hv6]. split.
  - intros H4. split; [|split].
    + unfold createWriter. rewrite decide_True by done. cbn.
      by intros t [= <-].
    + intros prefixes. unfold entryPrefixes. rewrite decide_True by done.
      destruct (GetIPv4Set entry) as [set|]; [|done]. cbn. intros [= <-].
      cbn in Hv4. eapply Forall_impl; [exact Hv4|].
      intros p. unfold Is4, Is6. by destruct (pAddr p).
    + intros other6. unfold addEntryToWriter, entryPrefixes.
      by rewrite !decide_True by done.
  - intros H6.
    assert (Hne : OnlyIPType m <> lib_IPv4) by (rewrite H6; done).
    split; [|split].
    + unfold createWriter. rewrite decide_False by done. cbn.
      by intros t [= <-].
    + intros prefixes. unfold entryPrefixes. rewrite decide_False by done.
      rewrite decide_True by done.
      destruct (GetIPv6Set entry) as [set|]; [|done]. cbn. intros [= <-].
      cbn in Hv6. eapply Forall_impl; [exact Hv6|].
      intros p. unfold Is4, Is6. by destruct (pAddr p).
    + intros other4. unfold addEntryToWriter, entryPrefixes.
      destruct (decide (OnlyIPType m = lib_IPv4)); [done|].
      by destruct (decide (OnlyIPType m = lib_IPv6)).
Qed.

(** C10: whatever the configuration, [createWriter] asks for database type
    "GeoIP2-Country", record size 28 and reserved networks included, and a
    writer it returns carries these options; the record of a label is the
    map with "country" and "registered_country", each holding the label as
    "iso_code"; and after [addEntryToWriter] an address resolves either to
    what it resolved to before or to that record. *)
Theorem writer_options_and_record
        (m : maxmindMMDBOut) (countryCode : string) :
  (exists ipVersion,
      createWriter m
      = mmdbwriter.New
          (mmdbwriter.MkOptions "GeoIP2-Country"
             [("en", "GeoIP2 Country database converted by geoip tool")]
             ipVersion 28 true))
  /\ (forall t, createWriter m = Ok t ->
        mmdbwriter.DatabaseType (mmdbwriter.opts t) = "GeoIP2-Country"
        /\ mmdbwriter.RecordSize (mmdbwriter.opts t) = 28%Z
        /\ mmdbwriter.IncludeReservedNetworks (mmdbwriter.opts t) = true)
  /\ countryRecord countryCode
     = mmdbtype_Map
         [("country", mmdbtype_Map [("iso_code", mmdbtype_String countryCode)]);
          ("registered_country",
           mmdbtype_Map [("iso_code", mmdbtype_String countryCode)])]
  /\ (forall writer entry writer' a,
        addEntryToWriter m writer entry countryCode = Ok writer' ->
        mmdbwriter.opts writer' = mmdbwriter.opts writer
        /\ (mmdbwriter.Lookup writer' a = mmdbwriter.Lookup writer a
            \/ mmdbwriter.Lookup writer' a = Some (countryRecord countryCode))).
Proof.
  split; [|split; [|split]].
  - exists (if decide (OnlyIPType m = lib_IPv4) then 4%Z else 6%Z).
    unfold createWriter. cbv zeta. by destruct (mmdbwriter.New _).
  - unfold createWriter. intros t.
    destruct (decide (OnlyIPType m = lib_IPv4)); cbn; by intros [= <-].
  - done.
  - intros writer entry writer' a. unfold addEntryToWriter.
    destruct (entryPrefixes m entry) as [prefixes|]; [|done]. cbn.
    intros H. split.
    + exact (insertPrefixes_opts _ _ _ _ H).
    + exact (insertPrefixes_Lookup _ _ _ _ a H).
Qed.


(** ** The output loops *)

Lemma writeFile_files (writer : mmdbwriter.Tree) (path : string) (w1 w2 : World) :
  files w1 = files w2 ->
  (writeFile writer path w1).1 = (writeFile writer path w2).1
  /\ files (writeFile writer path w1).2 = files (writeFile writer path w2).2.
Proof.
  intros Hf. unfold writeFile, os_Create, WriteTo.
  destruct (Create_err os path); cbn; [done|].
  destruct (WriteTo_err os path); cbn; rewrite Hf; done.
Qed.

Lemma writeFile_logs (writer : mmdbwriter.Tree) (path : string) (w : World) :
  logs (writeFile writer path w).2 = logs w.
Proof.
  unfold writeFile, os_Create, WriteTo.
  destruct (Create_err os path); cbn; [done|].
  by destruct (WriteTo_err os path).
Qed.

(** A run over a list from which an absent label was struck out has the
    result, and leaves the files, of the run over the whole list. *)
Lemma addEntries_skip (m : maxmindMMDBOut) (c : Container) (name : string)
      (list : list string) :
  GetEntry c name = None ->
  forall writer w1 w2, files w1 = files w2 ->
    (addEntries m c list writer w1).1
    = (addEntries m c (filter (fun x => x <> name) list) writer w2).1
    /\ files (addEntries m c list writer w1).2
       = files (addEntries m c (filter (fun x => x <> name) list) writer w2).2.
Proof.
  intros Hnone. induction list as [|x list IH]; intros writer w1 w2 Hf; [done|].
  rewrite filter_cons. destruct (decide (x <> name)) as [Hx|Hx].
  - cbn [addEntries]. destruct (GetEntry c x) as [entry|].
    + destruct (addEntryToWriter m writer entry x); [by apply IH | done].
    + by apply IH.
  - assert (x = name) as -> by (by destruct (decide (x = name))).
    cbn [addEntries]. rewrite Hnone. by apply IH.
Qed.

Lemma outputOneFilePerList_skip (m : maxmindMMDBOut) (c : Container)
      (name : string) (list : list string) :
  GetEntry c name = None ->
  forall w1 w2, files w1 = files w2 ->
    (outputOneFilePerList m c list w1).1
    = (outputOneFilePerList m c (filter (fun x => x <> name) list) w2).1
    /\ files (outputOneFilePerList m c list w1).2
       = files (outputOneFilePerList m c (filter (fun x => x <> name) list) w2).2.
Proof.
  intros Hnone. induction list as [|x list IH]; intros w1 w2 Hf; [done|].
  rewrite filter_cons. destruct (decide (x <> name)) as [Hx|Hx].
  - cbn [outputOneFilePerList]. destruct (GetEntry c x) as [entry|].
    + destruct (createWriter m) as [writer|]; [|done].
      destruct (addEntryToWriter m writer entry x) as [writer'|]; [|done].
      cbv zeta.
      destruct (writeFile_files writer'
                  (Join (OutputDir m) (ToLower x +:+ ".mmdb")) w1 w2 Hf)
        as [Hr Hfs].
      destruct (writeFile writer' _ w1) as [[[]|e1] w1'],
               (writeFile writer' _ w2) as [[[]|e2] w2'];
        cbn in Hr, Hfs;
        first [done | by apply IH | by inversion Hr; subst].
    + by apply IH.
  - assert (x = name) as -> by (by destruct (decide (x = name))).
    cbn [outputOneFilePerList]. rewrite Hnone. by apply IH.
Qed.

Lemma outputSingleFile_skip (m : maxmindMMDBOut) (c : Container)
      (name : string) (list : list string) (w : World) :
  GetEntry c name = None ->
  (outputSingleFile m c list w).1
  = (outputSingleFile m c (filter (fun x => x <> name) list) w).1
  /\ files (outputSingleFile m c list w).2
     = files (outputSingleFile m c (filter (fun x => x <> name) list) w).2.
Proof.
  intros Hnone. unfold outputSingleFile.
  destruct (createWriter m) as [writer|]; [|done].
  destruct (addEntries_skip m c name list Hnone writer w w eq_refl) as [Hr Hf].
  destruct (addEntries m c list writer w) as [[t1|e1] w1],
           (addEntries m c (filter _ list) writer w) as [[t2|e2] w2];
    cbn in Hr, Hf; try done; [|by inversion Hr; subst].
  inversion Hr; subst. cbv zeta.
  destruct (writeFile_files t2 (Join (OutputDir m) (OutputName m)) w1 w2 Hf)
    as [Hr' Hf'].
  destruct (writeFile t2 _ w1) as [[[]|e1] w1'],
           (writeFile t2 _ w2) as [[[]|e2] w2']; cbn in Hr', Hf';
    first [done | by inversion Hr'; subst].
Qed.

(** The log only grows. *)
Lemma addEntries_logs (m : maxmindMMDBOut) (c : Container) (list : list string)
      (writer : mmdbwriter.Tree) (w : World) (line : string) :
  line ∈ logs w -> line ∈ logs (addEntries m c list writer w).2.
Proof.
  revert writer w. induction list as [|x list IH]; intros writer w Hin; [done|].
  cbn [addEntries]. destruct (GetEntry c x) as [entry|].
  - destruct (addEntryToWriter m writer entry x); [by apply IH | done].
  - apply IH. cbn. apply elem_of_app. by left.
Qed.

Lemma outputOneFilePerList_logs (m : maxmindMMDBOut) (c : Container)
      (list : list string) (w : World) (line : string) :
  line ∈ logs w -> line ∈ logs (outputOneFilePerList m c list w).2.
Proof.
  revert w. induction list as [|x list IH]; intros w Hin; [done|].
  cbn [outputOneFilePerList]. destruct (GetEntry c x) as [entry|].
  - destruct (createWriter m) as [writer|]; [|done].
    destruct (addEntryToWriter m writer entry x) as [writer'|]; [|done].
    cbv zeta.
    pose proof (writeFile_logs writer'
                  (Join (OutputDir m) (ToLower x +:+ ".mmdb")) w) as Hl.
    destruct (writeFile writer' _ w) as [[[]|e] w1]; cbn in Hl.
    + apply IH. cbn. rewrite Hl. apply elem_of_app. by left.
    + cbn. by rewrite Hl.
  - apply IH. cbn. apply elem_of_app. by left.
Qed.

(** A successful run has logged every absent label it was given. *)
Lemma addEntries_logged (m : maxmindMMDBOut) (c : Container) (name : string)
      (list : list string) :
  GetEntry c name = None -> name ∈ list ->
  forall writer w writer',
    (addEntries m c list writer w).1 = Ok writer' ->
    notFoundLine name ∈ logs (addEntries m c list writer w).2.
Proof.
  intros Hnone. induction list as [|x list IH]; intros Hin writer w writer' Hok.
  - by apply elem_of_nil in Hin.
  - destruct (decide (x = name)) as [->|Hx].
    + cbn [addEntries] in *. rewrite Hnone in *.
      apply addEntries_logs. cbn. apply elem_of_app. right. by left.
    + apply elem_of_cons in Hin as [->|Hin]; [done|].
      cbn [addEntries] in *. destruct (GetEntry c x) as [entry|].
      * destruct (addEntryToWriter m writer entry x); [by eapply IH | done].
      * by eapply IH.
Qed.

Lemma outputOneFilePerList_logged (m : maxmindMMDBOut) (c : Container)
      (name : string) (list : list string) :
  GetEntry c name = None -> name ∈ list ->
  forall w,
    (outputOneFilePerList m c list w).1 = Ok tt ->
    notFoundLine name ∈ logs (outputOneFilePerList m c list w).2.
Proof.
  intros Hnone. induction list as [|x list IH]; intros Hin w Hok.
  - by apply elem_of_nil in Hin.
  - destruct (decide (x = name)) as [->|Hx].
    + cbn [outputOneFilePerList] in *. rewrite Hnone in *.
      apply outputOneFilePerList_logs. cbn. apply elem_of_app. right. by left.
    + apply elem_of_cons in Hin as [->|Hin]; [done|].
      cbn [outputOneFilePerList] in *. destruct (GetEntry c x) as [entry|].
      * destruct (createWriter m) as [writer|]; [|done].
        destruct (addEntryToWriter m writer entry x) as [writer'|]; [|done].
        cbv zeta in *.
        destruct (writeFile writer' _ w) as [[[]|e] w1]; [|done].
        by apply IH.
      * by apply IH.
Qed.

(** C1 (as amended): a selected label that the container does not have is
    logged and skipped in both modes: the run returns what the run without
    that label returns and leaves the same files, and when it succeeds the
    log holds the line that names the label. *)
Theorem missing_label_skipped (m : maxmindMMDBOut) (c : Container)
        (w : World) (name : string) :
  MkdirAll_err os (OutputDir m) = None ->
  name ∈ filterAndSortList m c ->
  GetEntry c name = None ->
  let remaining := filter (fun x => x <> name) (filterAndSortList m c) in
  (Output m c w).1 = (outputList m c remaining w).1
  /\ files (Output m c w).2 = files (outputList m c remaining w).2
  /\ ((Output m c w).1 = Ok tt -> notFoundLine name ∈ logs (Output m c w).2).
Proof.
  intros Hmk Hin Hnone remaining. unfold Output, outputList. rewrite Hmk.
  cbv zeta. subst remaining. destruct (OneFilePerList m).
  - destruct (outputOneFilePerList_skip m c name (filterAndSortList m c)
                Hnone w w eq_refl) as [Hr Hf].
    split; [done|]. split; [done|].
    by apply outputOneFilePerList_logged.
  - destruct (outputSingleFile_skip m c name (filterAndSortList m c) w Hnone)
      as [Hr Hf].
    split; [done|]. split; [done|].
    unfold outputSingleFile.
    destruct (createWriter m) as [writer|]; [|done].
    pose proof (addEntries_logged m c name (filterAndSortList m c)
                  Hnone Hin writer w) as Hlog.
    destruct (addEntries m c (filterAndSortList m c) writer w)
      as [[writer'|e] w1]; [|done].
    specialize (Hlog writer' eq_refl). cbn in Hlog. cbv zeta.
    pose proof (writeFile_logs writer' (Join (OutputDir m) (OutputName m)) w1)
      as Hl.
    destruct (writeFile writer' _ w1) as [[[]|e] w2]; [|done].
    cbn in Hl. intros _. cbn. rewrite Hl. apply elem_of_app. by left.
Qed.


(** *** Per-label mode *)

Lemma outputOneFilePerList_app (m : maxmindMMDBOut) (c : Container)
      (pre rest : list string) (w w1 : World) :
  outputOneFilePerList m c pre w = (Ok tt, w1) ->
  outputOneFilePerList m c (pre ++ rest) w = outputOneFilePerList m c rest w1.
Proof.
  revert w. induction pre as [|x pre IH]; intros w.
  - cbn. by intros [= <-].
  - cbn [outputOneFilePerList app]. destruct (GetEntry c x) as [entry|].
    + destruct (createWriter m) as [writer|]; [|done].
      destruct (addEntryToWriter m writer entry x) as [writer'|]; [|done].
      cbv zeta. destruct (writeFile writer' _ w) as [[[]|e] w']; [|done].
      apply IH.
    + apply IH.
Qed.

(** C6: in Per-label mode, when building the trie of a label fails, the run
    stops with the error that names the label, and the files are the ones
    left by the labels before it: nothing was created or written for the
    failing label, and no later label is processed. *)
Theorem per_label_build_failure_leaves_no_file
        (m : maxmindMMDBOut) (c : Container) (pre post : list string)
        (name : string) (entry : Entry) (writer : mmdbwriter.Tree)
        (err : error) (w w1 : World) :
  outputOneFilePerList m c pre w = (Ok tt, w1) ->
  GetEntry c name = Some entry ->
  createWriter m = Ok writer ->
  addEntryToWriter m writer entry name = Fail err ->
  outputOneFilePerList m c (pre ++ name :: post) w
  = (Fail (addFailed name err), w1).
Proof.
  intros Hpre Hget Hcw Hadd.
  rewrite (outputOneFilePerList_app m c pre (name :: post) w w1 Hpre).
  cbn [outputOneFilePerList]. by rewrite Hget, Hcw, Hadd.
Qed.

Lemma writeFile_ok (writer : mmdbwriter.Tree) (path : string) (w w' : World) :
  writeFile writer path w = (Ok tt, w') ->
  files w' = <[path := Database writer]> (files w).
Proof.
  unfold writeFile, os_Create, WriteTo.
  destruct (Create_err os path); [done|].
  destruct (WriteTo_err os path); [done|].
  intros [= <-]. cbn. by rewrite insert_insert_eq.
Qed.

Lemma outputOneFilePerList_files (m : maxmindMMDBOut) (c : Container)
      (list : list string) :
  Forall (fun name => is_Some (GetEntry c name)) list ->
  forall w w', outputOneFilePerList m c list w = (Ok tt, w') ->
    dom (files w') = dom (files w) ∪ list_to_set (labelPath m <$> list)
    /\ (forall p t, files w !! p = Some (Database t) ->
                    exists t', files w' !! p = Some (Database t'))
    /\ (forall name, name ∈ list ->
                     exists t, files w' !! labelPath m name = Some (Database t)).
Proof.
  induction 1 as [|x list [entry Hget] Hall IH]; intros w w' Hrun.
  - cbn in Hrun. injection Hrun as <-.
    split; [cbn; by rewrite (right_id_L ∅ (∪))|]. split.
    + intros p t Hp. by exists t.
    + intros name Hin. by apply elem_of_nil in Hin.
  - cbn [outputOneFilePerList] in Hrun. rewrite Hget in Hrun.
    destruct (createWriter m) as [writer|]; [|done].
    destruct (addEntryToWriter m writer entry x) as [writer'|]; [|done].
    cbv zeta in Hrun. fold (labelPath m x) in Hrun.
    destruct (writeFile writer' (labelPath m x) w) as [[[]|e] w1] eqn:Hwf; [|done].
    apply writeFile_ok in Hwf.
    destruct (IH _ _ Hrun) as [Hdom [Hkeep Hnew]]. cbn [files log_Printf] in *.
    rewrite Hwf in *. split; [|split].
    + rewrite Hdom, dom_insert_L, fmap_cons, list_to_set_cons.
      by rewrite (assoc_L (∪)), (comm_L (∪) (dom (files w))).

    + intros p t Hp. destruct (decide (p = labelPath m x)) as [->|Hne].
      * apply (Hkeep _ writer'). by rewrite lookup_insert_eq.
      * apply (Hkeep _ t). by rewrite lookup_insert_ne.
    + intros name Hin. apply elem_of_cons in Hin as [->|Hin]; [|by apply Hnew].
      apply (Hkeep _ writer'). by rewrite lookup_insert_eq.
Qed.


(** * Further properties *)

(** ** Selector *)

(** X1: no label of the result is one of the normalised exclude entries,
    whichever branch produced the result. *)
Theorem filterAndSortList_never_excluded (m : maxmindMMDBOut) (c : Container)
        (name : string) :
  name ∈ filterAndSortList m c -> name ∉ normalized (Exclude m).
Proof.
  rewrite filterAndSortList_unfold.
  destruct (decide _); rewrite slices_Sort_perm; unfold minus;
    rewrite list_elem_of_filter; by intros [H _].
Qed.

(** X2: when every normalised want entry is excluded, the want-list counts
    for nothing: the result is the sorted list of the container's names that
    are not excluded. *)
Theorem filterAndSortList_all_wanted_excluded (m : maxmindMMDBOut) (c : Container) :
  (forall x, x ∈ normalized (Want m) -> x ∈ normalized (Exclude m)) ->
  filterAndSortList m c
  = slices_Sort (minus (GetName <$> Loop c) (normalized (Exclude m))).
Proof.
  intros Hall. rewrite filterAndSortList_unfold.
  destruct (decide _) as [Hne|_]; [|done].
  exfalso. apply Hne. unfold minus. revert Hall.
  generalize (normalized (Want m)). intros l.
  induction l as [|x l IH]; intros Hall; [done|].
  rewrite filter_cons. rewrite decide_False.
  - apply IH. intros y Hy. apply Hall. by right.
  - intros Hx. apply Hx. apply Hall. by left.
Qed.

(** ** Resolution after insertion *)

Lemma Lookup_Insert_covers (t t' : mmdbwriter.Tree) (net : Prefix) (v : DataType)
      (a : Addr) :
  mmdbwriter.Insert net v t = Ok t' ->
  mmdbwriter.Lookup t' a
  = if covers (mmdbwriter.IPVersion (mmdbwriter.opts t)) a net then Some v
    else mmdbwriter.Lookup t a.
Proof.
  intros Hi. destruct (Lookup_Insert t t' net v a Hi) as [_ [path [Hp ->]]].
  unfold covers, mmdbwriter.Lookup. rewrite Hp.
  destruct (mmdbwriter.addr_path _ a) as [full|]; [|done].
  destruct (decide (take (length path) full = path)) as [Heq|Hne].
  - by rewrite bool_decide_eq_true_2.
  - by rewrite bool_decide_eq_false_2.
Qed.

Lemma insertPrefixes_covers (prefixes : list Prefix) (record : DataType)
      (writer writer' : mmdbwriter.Tree) (a : Addr) :
  insertPrefixes writer prefixes record = Ok writer' ->
  mmdbwriter.Lookup writer' a
  = if existsb (covers (mmdbwriter.IPVersion (mmdbwriter.opts writer)) a) prefixes
    then Some record else mmdbwriter.Lookup writer a.
Proof.
  revert writer. induction prefixes as [|p ps IH]; intros writer; simpl.
  - by intros [= <-].
  - destruct (mmdbwriter.Insert (PrefixIPNet p) record writer) as [w1|] eqn:Hi; [|done].
    cbn. intros H. rewrite (IH _ H).
    destruct (Lookup_Insert _ _ _ _ a Hi) as [-> _].
    rewrite (Lookup_Insert_covers _ _ _ _ a Hi). unfold PrefixIPNet.
    destruct (covers _ a p), (existsb _ ps); done.
Qed.

Lemma addEntryToWriter_Lookup
      (m : maxmindMMDBOut) (writer writer' : mmdbwriter.Tree) (entry : Entry)
      (countryCode : string) (a : Addr) :
  addEntryToWriter m writer entry countryCode = Ok writer' ->
  mmdbwriter.Lookup writer' a
  = if entryCovers m (mmdbwriter.IPVersion (mmdbwriter.opts writer)) a entry
    then Some (countryRecord countryCode)
    else mmdbwriter.Lookup writer a.
Proof.
  unfold addEntryToWriter, entryCovers.
  destruct (entryPrefixes m entry) as [prefixes|]; [|done]. cbn.
  apply insertPrefixes_covers.
Qed.


Lemma addEntryToWriter_opts
      (m : maxmindMMDBOut) (writer writer' : mmdbwriter.Tree) (entry : Entry)
      (countryCode : string) :
  addEntryToWriter m writer entry countryCode = Ok writer' ->
  mmdbwriter.opts writer' = mmdbwriter.opts writer.
Proof.
  unfold addEntryToWriter.
  destruct (entryPrefixes m entry) as [prefixes|]; [|done]. cbn.
  apply insertPrefixes_opts.
Qed.

Lemma addEntries_resolve (m : maxmindMMDBOut) (c : Container) (list : list string)
      (writer writer' : mmdbwriter.Tree) (w w' : World) (a : Addr) :
  addEntries m c list writer w = (Ok writer', w') ->
  mmdbwriter.opts writer' = mmdbwriter.opts writer
  /\ mmdbwriter.Lookup writer' a
     = resolve m c (mmdbwriter.IPVersion (mmdbwriter.opts writer)) a list
         (mmdbwriter.Lookup writer a).
Proof.
  revert writer w. induction list as [|name rest IH]; intros writer w.
  - cbn. by intros [= <- <-].
  - cbn [addEntries resolve foldl]. destruct (GetEntry c name) as [entry|].
    + destruct (addEntryToWriter m writer entry name) as [w1|] eqn:Hadd; [|done].
      intros Hrun. destruct (IH _ _ Hrun) as [Ho ->].
      rewrite (addEntryToWriter_opts _ _ _ _ _ Hadd) in *.
      split; [done|]. unfold resolve.
      by rewrite (addEntryToWriter_Lookup _ _ _ _ _ a Hadd).
    + intros Hrun. by destruct (IH _ _ Hrun) as [Ho ->].
Qed.

Lemma createWriter_fresh (m : maxmindMMDBOut) (t : mmdbwriter.Tree) (a : Addr) :
  createWriter m = Ok t ->
  mmdbwriter.Lookup t a = None
  /\ mmdbwriter.IPVersion (mmdbwriter.opts t)
     = if decide (OnlyIPType m = lib_IPv4) then 4%Z else 6%Z.
Proof.
  unfold createWriter, mmdbwriter.New. cbv zeta.
  destruct (_ && _); [|done]. cbn. intros [= <-].
  split; [|done]. unfold mmdbwriter.Lookup. cbn [mmdbwriter.root].
  destruct (mmdbwriter.addr_path _ a) as [full|]; [|done]. by destruct full.
Qed.

(** ** Aggregate mode *)

Lemma writeFile_outcomes (writer : mmdbwriter.Tree) (path : string) (w : World) :
  match writeFile writer path w with
  | (Ok _, w') =>
      Create_err os path = None /\ WriteTo_err os path = None
      /\ w' = MkWorld (<[path := Database writer]> (files w)) (logs w)
  | (Fail err, w') =>
      (Create_err os path = Some err /\ w' = w)
      \/ (Create_err os path = None /\ WriteTo_err os path = Some err
          /\ w' = MkWorld (<[path := Created]> (files w)) (logs w))
  end.
Proof.
  unfold writeFile, os_Create, WriteTo.
  destruct (Create_err os path) as [e|]; cbn; [by left|].
  destruct (WriteTo_err os path) as [e|]; cbn; [by right|].
  by rewrite insert_insert_eq.
Qed.

Lemma addEntries_files (m : maxmindMMDBOut) (c : Container) (list : list string)
      (writer : mmdbwriter.Tree) (w : World) :
  files (addEntries m c list writer w).2 = files w.
Proof.
  revert writer w. induction list as [|name rest IH]; intros writer w; [done|].
  cbn [addEntries]. destruct (GetEntry c name) as [entry|].
  - destruct (addEntryToWriter m writer entry name); [apply IH | done].
  - by rewrite IH.
Qed.

Lemma outputSingleFile_success
      (m : maxmindMMDBOut) (c : Container) (list : list string) (w w' : World) :
  outputSingleFile m c list w = (Ok tt, w') ->
  exists t0 t w1,
    createWriter m = Ok t0
    /\ addEntries m c list t0 w = (Ok t, w1)
    /\ files w' = <[Join (OutputDir m) (OutputName m) := Database t]> (files w).
Proof.
  unfold outputSingleFile.
  destruct (createWriter m) as [t0|] eqn:Hcw; [|done].
  pose proof (addEntries_files m c list t0 w) as Hfiles.
  destruct (addEntries m c list t0 w) as [[t|e] w1] eqn:Hadd; [|done].
  cbv zeta. cbn in Hfiles.
  pose proof (writeFile_outcomes t (Join (OutputDir m) (OutputName m)) w1) as Hwf.
  destruct (writeFile t _ w1) as [[[]|e] w2]; [|done].
  destruct Hwf as [_ [_ ->]]. intros [= <-]. exists t0, t, w1.
  cbn. by rewrite Hfiles.
Qed.



(** ** Per-label mode *)


(** ** What a run touches and what it logs *)

Lemma outputOneFilePerList_frame
      (m : maxmindMMDBOut) (c : Container) (list : list string) (w : World)
      (p : string) :
  (forall name, name ∈ list -> is_Some (GetEntry c name) ->
                p <> Join (OutputDir m) (ToLower name +:+ ".mmdb")) ->
  files (outputOneFilePerList m c list w).2 !! p = files w !! p.
Proof.
  revert w. induction list as [|x rest IH]; intros w Hp; [done|].
  assert (Hrest : forall name, name ∈ rest -> is_Some (GetEntry c name) ->
                    p <> Join (OutputDir m) (ToLower name +:+ ".mmdb")).
  { intros name Hin. apply Hp. by right. }
  cbn [outputOneFilePerList]. destruct (GetEntry c x) as [entry|] eqn:Hget.
  - destruct (createWriter m) as [t0|]; [|done].
    destruct (addEntryToWriter m t0 entry x) as [t1|]; [|done].
    cbv zeta.
    assert (Hne : p <> Join (OutputDir m) (ToLower x +:+ ".mmdb")).
    { apply Hp; [by left | by rewrite Hget]. }
    pose proof (writeFile_outcomes t1
                  (Join (OutputDir m) (ToLower x +:+ ".mmdb")) w) as Hwf.
    destruct (writeFile t1 _ w) as [[[]|e] w1].
    + destruct Hwf as [_ [_ ->]]. rewrite IH by done. cbn.
      by rewrite lookup_insert_ne.
    + destruct Hwf as [[_ ->]|[_ [_ ->]]]; cbn; [done|].
      by rewrite lookup_insert_ne.
  - by rewrite IH.
Qed.

(** X7: whatever its outcome, [Output] changes no file other than its own:
    in Aggregate mode the file at [Join OutputDir OutputName], in Per-label
    mode the files of the selected labels that the container has. *)
Theorem Output_touches_only_its_files
        (m : maxmindMMDBOut) (c : Container) (w : World) (p : string) :
  (if OneFilePerList m
   then forall name, name ∈ filterAndSortList m c -> is_Some (GetEntry c name) ->
                     p <> Join (OutputDir m) (ToLower name +:+ ".mmdb")
   else p <> Join (OutputDir m) (OutputName m)) ->
  files (Output m c w).2 !! p = files w !! p.
Proof.
  unfold Output. destruct (MkdirAll_err os (OutputDir m)); [done|].
  cbv zeta. destruct (OneFilePerList m).
  - apply outputOneFilePerList_frame.
  - intros Hne. unfold outputSingleFile.
    destruct (createWriter m) as [t0|]; [|done].
    pose proof (addEntries_files m c (filterAndSortList m c) t0 w) as Hfiles.
    destruct (addEntries m c _ t0 w) as [[t|e] w1]; cbn in Hfiles;
      [|cbn; by rewrite Hfiles].
    cbv zeta.
    pose proof (writeFile_outcomes t (Join (OutputDir m) (OutputName m)) w1) as Hwf.
    destruct (writeFile t _ w1) as [[[]|e] w2].
    + destruct Hwf as [_ [_ ->]]. cbn. rewrite lookup_insert_ne by done.
      by rewrite Hfiles.
    + destruct Hwf as [[_ ->]|[_ [_ ->]]]; cbn.
      * by rewrite Hfiles.
      * rewrite lookup_insert_ne by done. by rewrite Hfiles.
Qed.

Lemma addEntries_log (m : maxmindMMDBOut) (c : Container) (list : list string)
      (writer : mmdbwriter.Tree) (w : World) :
  exists k, logs (addEntries m c list writer w).2
            = logs w ++ (notFoundLine
                           <$> take k (filter (fun name => GetEntry c name = None) list))
            /\ (forall t, (addEntries m c list writer w).1 = Ok t ->
                          (length (filter (fun name => GetEntry c name = None) list)
                           <= k)%nat).
Proof.
  revert writer w. induction list as [|name rest IH]; intros writer w.
  - exists 0%nat. cbn. by rewrite app_nil_r.
  - cbn [addEntries]. rewrite filter_cons.
    destruct (GetEntry c name) as [entry|] eqn:Hget.
    + rewrite decide_False by done.
      destruct (addEntryToWriter m writer entry name) as [w1|].
      * apply IH.
      * exists 0%nat. cbn. rewrite app_nil_r. split; [done|]. intros t [=].
    + rewrite decide_True by done.
      destruct (IH writer (log_Printf (notFoundLine name) w)) as [k [Hl Hk]].
      exists (S k). split.
      * rewrite Hl. cbn. by rewrite <- app_assoc.
      * intros t Ht. cbn. specialize (Hk t Ht). lia.
Qed.

(** X8: a successful run logs one line for each label in Per-label mode, in
    the order of the list: the not-found line for a label the container
    lacks, the line of the written file otherwise; in Aggregate mode it
    logs the not-found lines of the lacking labels, in order, and then one
    line for the written file. *)
Theorem successful_run_log
        (m : maxmindMMDBOut) (c : Container) (list : list string) (w w' : World) :
  (outputOneFilePerList m c list w = (Ok tt, w') ->
     logs w' = logs w ++ (labelLine m c <$> list))
  /\ (outputSingleFile m c list w = (Ok tt, w') ->
        logs w' = logs w
                  ++ (notFoundLine <$> filter (fun name => GetEntry c name = None) list)
                  ++ [doneLine m (OutputName m)]).
Proof.
  split.
  - revert w. induction list as [|x rest IH]; intros w.
    + cbn. intros [= <-]. by rewrite app_nil_r.
    + cbn [outputOneFilePerList fmap list_fmap]. unfold labelLine at 1.
      destruct (GetEntry c x) as [entry|].
      * destruct (createWriter m) as [t0|]; [|done].
        destruct (addEntryToWriter m t0 entry x) as [t1|]; [|done].
        cbv zeta.
        pose proof (writeFile_logs t1
                      (Join (OutputDir m) (ToLower x +:+ ".mmdb")) w) as Hl.
        destruct (writeFile t1 _ w) as [[[]|e] w1]; [|done].
        intros Hrun. rewrite (IH _ Hrun). cbn in *. rewrite Hl.
        by rewrite <- app_assoc.
      * intros Hrun. rewrite (IH _ Hrun). cbn. by rewrite <- app_assoc.
  - unfold outputSingleFile.
    destruct (createWriter m) as [t0|]; [|done].
    destruct (addEntries_log m c list t0 w) as [k [Hl Hk]].
    destruct (addEntries m c list t0 w) as [[t|e] w1]; [|done].
    cbv zeta. cbn in Hl. specialize (Hk t eq_refl).
    pose proof (writeFile_logs t (Join (OutputDir m) (OutputName m)) w1) as Hl'.
    destruct (writeFile t _ w1) as [[[]|e] w2]; [|done].
    intros [= <-]. cbn in *. rewrite Hl', Hl.
    rewrite take_ge by done. by rewrite <- app_assoc.
Qed.

(** ** Failing and empty runs *)


(** X15: when the container has none of the labels of the list, the empty
    list included, an Aggregate run that the operating system lets through
    still succeeds: it logs each label as not found and writes a database in
    which no address resolves. *)
Theorem outputSingleFile_nothing_found
        (m : maxmindMMDBOut) (c : Container) (list : list string) (w : World) :
  (forall name, name ∈ list -> GetEntry c name = None) ->
  Create_err os (Join (OutputDir m) (OutputName m)) = None ->
  WriteTo_err os (Join (OutputDir m) (OutputName m)) = None ->
  exists t,
    outputSingleFile m c list w
    = (Ok tt,
       MkWorld (<[Join (OutputDir m) (OutputName m) := Database t]> (files w))
               (logs w ++ (notFoundLine <$> list) ++ [doneLine m (OutputName m)]))
    /\ forall a, mmdbwriter.Lookup t a = None.
Proof.
  intros Hnone Hcr Hwr.
  assert (Hcw : exists t0, createWriter m = Ok t0).
  { unfold createWriter, mmdbwriter.New. cbv zeta.
    destruct (decide (OnlyIPType m = lib_IPv4)); eexists; reflexivity. }
  destruct Hcw as [t0 Hcw]. exists t0. split.
  - assert (Hloop : forall w0,
               addEntries m c list t0 w0
               = (Ok t0, MkWorld (files w0) (logs w0 ++ (notFoundLine <$> list)))).
    { clear Hcr Hwr. induction list as [|x rest IH]; intros w0.
      - cbn. rewrite app_nil_r. by destruct w0.
      - cbn [addEntries]. rewrite (Hnone x) by (by left).
        rewrite IH by (intros name Hin; apply Hnone; by right).
        cbn. by rewrite <- app_assoc. }
    unfold outputSingleFile. rewrite Hcw, Hloop. cbv zeta.
    unfold writeFile, os_Create, WriteTo. rewrite Hcr, Hwr.
    unfold log_Printf. cbn [files logs].
    by rewrite insert_insert_eq, <- app_assoc.
  - intros a. by destruct (createWriter_fresh m t0 a Hcw) as [-> _].
Qed.

(** ** Other values of [OnlyIPType] *)

Lemma addEntryToWriter_withOnlyIPType (m : maxmindMMDBOut) :
  OnlyIPType m <> lib_IPv4 -> OnlyIPType m <> lib_IPv6 ->
  createWriter (withOnlyIPType "" m) = createWriter m
  /\ forall writer entry countryCode,
      addEntryToWriter (withOnlyIPType "" m) writer entry countryCode
      = addEntryToWriter m writer entry countryCode.
Proof.
  intros H4 H6. split.
  - unfold createWriter. cbn [OnlyIPType withOnlyIPType].
    by rewrite (decide_False (P := OnlyIPType m = lib_IPv4)) by done.
  - intros writer entry countryCode. unfold addEntryToWriter, entryPrefixes.
    cbn [OnlyIPType withOnlyIPType].
    rewrite (decide_False (P := OnlyIPType m = lib_IPv4)) by done.
    by rewrite (decide_False (P := OnlyIPType m = lib_IPv6)) by done.
Qed.

(** X9: [OnlyIPType] is compared with "ipv4" and "ipv6" as it stands: with
    any other value, such as "IPv4", [Output] does what it does with the
    empty value, that is, it writes both families. *)
Theorem Output_other_ipType (m : maxmindMMDBOut) (c : Container) (w : World) :
  OnlyIPType m <> lib_IPv4 -> OnlyIPType m <> lib_IPv6 ->
  Output m c w = Output (withOnlyIPType "" m) c w.
Proof.
  intros H4 H6.
  destruct (addEntryToWriter_withOnlyIPType m H4 H6) as [Hcw Hadd].
  assert (Hloop : forall list writer w0,
             addEntries (withOnlyIPType "" m) c list writer w0
             = addEntries m c list writer w0).
  { induction list as [|name rest IH]; intros writer w0; [done|].
    cbn [addEntries]. destruct (GetEntry c name) as [entry|]; [|apply IH].
    rewrite Hadd. destruct (addEntryToWriter m writer entry name); [apply IH|done]. }
  assert (Hper : forall list w0,
             outputOneFilePerList (withOnlyIPType "" m) c list w0
             = outputOneFilePerList m c list w0).
  { induction list as [|name rest IH]; intros w0; [done|].
    cbn [outputOneFilePerList]. destruct (GetEntry c name) as [entry|]; [|apply IH].
    rewrite Hcw. destruct (createWriter m) as [t0|]; [|done].
    rewrite Hadd. destruct (addEntryToWriter m t0 entry name) as [t1|]; [|done].
    cbv zeta. cbn [OutputDir withOnlyIPType].
    destruct (writeFile t1 _ w0) as [[[]|e] w1]; [|done].
    apply IH. }
  unfold Output. cbn [OutputDir OneFilePerList withOnlyIPType].
  destruct (MkdirAll_err os (OutputDir m)); [done|]. cbv zeta.
  change (filterAndSortList (withOnlyIPType "" m) c) with (filterAndSortList m c).
  destruct (OneFilePerList m); [by rewrite Hper|].
  unfold outputSingleFile. rewrite Hcw.
  destruct (createWriter m) as [t0|]; [|done]. by rewrite Hloop.
Qed.

(** ** Construction *)



(** ** The command line *)

(** X12: without [-l], as soon as [-input] or [-output] is given the
    configuration file is never read; and when one of [-input],
    [-inputFile], [-output] is missing, [main] ends in [log.Fatal] with the
    message for the first missing one, before any instance is made. *)
Theorem main_quick_conversion (f : Flags) :
  flag_l f = false ->
  flag_input f <> "" \/ flag_output f <> "" ->
  (forall path, EvInitConfig path ∉ (main f).1)
  /\ (flag_input f = "" \/ flag_inputFile f = "" \/ flag_output f = "" ->
      main f
      = ([], Some (Err (if decide (flag_input f = "")
                        then "input format is required (use -input)"
                        else if decide (flag_inputFile f = "")
                        then "input file is required (use -inputFile)"
                        else "output format is required (use -output)")))).
Proof.
  intros Hl Hquick. unfold main. rewrite Hl.
  assert (Hb : bool_decide (flag_input f <> "") || bool_decide (flag_output f <> "")
               = true).
  { destruct Hquick as [H|H].
    - by rewrite (bool_decide_eq_true_2 _ H).
    - rewrite (bool_decide_eq_true_2 _ H). apply orb_true_r. }
  rewrite Hb. unfold runQuickConversion. split.
  - intros path.
    destruct (decide (flag_input f = "")); [apply not_elem_of_nil|].
    destruct (decide (flag_inputFile f = "")); [apply not_elem_of_nil|].
    destruct (decide (flag_output f = "")); [apply not_elem_of_nil|].
    destruct (NewInstance_err lib);
      [by intros [?|?%elem_of_nil]%elem_of_cons|].
    destruct (json_Marshal (quickConfig f)) as [bytes|];
      [|by intros [?|?%elem_of_nil]%elem_of_cons].
    destruct (InitConfigFromBytes_err lib bytes).
    { intros Hin. repeat (apply elem_of_cons in Hin as [Hin|Hin]; [done|]).
      by apply elem_of_nil in Hin. }
    destruct (Run_err lib (FromBytes bytes)); cbn;
      intros Hin; repeat (apply elem_of_cons in Hin as [Hin|Hin]; [done|]);
      by apply elem_of_nil in Hin.
  - intros Hmiss.
    destruct (decide (flag_input f = "")); [done|].
    destruct (decide (flag_inputFile f = "")); [done|].
    destruct (decide (flag_output f = "")); [done|].
    by destruct Hmiss as [?|[?|?]].
Qed.

(** X13: [-outputFile] reaches the output arguments under one key only:
    "outputName" when it ends in ".dat", ".mmdb" or ".txt", "outputDir"
    otherwise, and under neither when it is empty; the wanted list and the
    IP type reach the input and the output arguments alike. *)
Theorem quick_conversion_arguments (f : Flags) :
  (flag_outputFile f = "" ->
     outputArgsOf f !! "outputName" = None /\ outputArgsOf f !! "outputDir" = None)
  /\ (flag_outputFile f <> "" ->
      if HasSuffix (flag_outputFile f) ".dat"
         || HasSuffix (flag_outputFile f) ".mmdb"
         || HasSuffix (flag_outputFile f) ".txt"
      then outputArgsOf f !! "outputName" = Some (VString (flag_outputFile f))
           /\ outputArgsOf f !! "outputDir" = None
      else outputArgsOf f !! "outputDir" = Some (VString (flag_outputFile f))
           /\ outputArgsOf f !! "outputName" = None)
  /\ outputArgsOf f !! "wantedList" = inputArgsOf f !! "wantedList"
  /\ outputArgsOf f !! "onlyIPType" = inputArgsOf f !! "onlyIPType".
Proof.
  unfold outputArgsOf, inputArgsOf. cbv zeta.
  destruct (decide (flag_outputFile f <> "")) as [Hof|Hof];
    destruct (HasSuffix (flag_outputFile f) ".dat"
              || HasSuffix (flag_outputFile f) ".mmdb"
              || HasSuffix (flag_outputFile f) ".txt");
    destruct (decide (flag_onlyIPType f <> ""));
    destruct (decide (flag_wantList f <> ""));
    destruct (decide (ToLower (flag_input f) = "text"));
    destruct (decide (flag_inputName f <> ""));
    (split; [intros He; try done; by simplify_map_eq|]);
    (split; [intros Hne; try done; by simplify_map_eq|]);
    by simplify_map_eq.
Qed.

End Plugin.

(** * The statements at sample inputs *)

Section Evaluated.
Import Sample.


(** ** Selector *)

Example select_want_minus_exclude :
  filterAndSortList up trim (config ["US"; "CN"] ["CN"] false "") container3
  = ["US"].
Proof. vm_compute. reflexivity. Qed.

Example select_all_minus_exclude :
  filterAndSortList up trim (config [] ["US"] false "") container3
  = ["CN"; "JP"].
Proof. vm_compute. reflexivity. Qed.

(** C2, counterexample: a want-list that names a label twice is returned
    with the label twice, where the claim promises a deduplicated result;
    and a non-empty want-list whose labels are all excluded yields the
    labels of the container, where the claim promises [want − exclude],
    the empty list. *)
Lemma filterAndSortList_selects_counterexample :
  (normalized up trim [" us"; "US"] <> []
   /\ filterAndSortList up trim (config [" us"; "US"] [] false "") container3
      = ["US"; "US"]
   /\ spec_select up trim [" us"; "US"] [] (GetName <$> Loop container3) = ["US"])
  /\ (normalized up trim ["cn"] <> []
      /\ filterAndSortList up trim (config ["cn"] ["CN"] false "") container3
         = ["JP"; "US"]
      /\ spec_select up trim ["cn"] ["CN"] (GetName <$> Loop container3) = []).
Proof.
  split; (split; [vm_compute; discriminate|]);
    (split; vm_compute; reflexivity).
Qed.

Lemma filterAndSortList_selects_witness :
  (minus (normalized up trim [" us"; "cn "; "US"]) (normalized up trim ["CN"]) <> []
   /\ filterAndSortList up trim (config [" us"; "cn "; "US"] ["CN"] false "") container3
      ≡ₚ ["US"; "US"])
  /\ (normalized up trim [" "; ""] = []
      /\ filterAndSortList up trim (config [" "; ""] ["jp"] false "") container3
         ≡ₚ ["US"; "CN"]).
Proof.
  split.
  - split; [vm_compute; discriminate|].
    destruct (filterAndSortList_selects up trim
                (config [" us"; "cn "; "US"] ["CN"] false "") container3)
      as [H _].
    apply H. vm_compute. discriminate.
  - split; [vm_compute; reflexivity|].
    destruct (filterAndSortList_selects up trim
                (config [" "; ""] ["jp"] false "") container3)
      as [_ H].
    apply H. vm_compute. reflexivity.
Defined.

Lemma filterAndSortList_raw_names_witness :
  normalized up trim [] = []
  /\ (forall x, x ∈ normalized up trim ["us"] -> GetName entry_us <> x)
  /\ "us" ∈ filterAndSortList up trim (config [] ["us"] false "") container_us.
Proof.
  assert (Hx : forall x, x ∈ normalized up trim ["us"] -> GetName entry_us <> x).
  { intros x Hin. vm_compute in Hin. apply list_elem_of_singleton in Hin.
    subst x. vm_compute. discriminate. }
  split; [reflexivity|]. split; [exact Hx|].
  destruct (filterAndSortList_raw_names up trim
              (config [] ["us"] false "") container_us eq_refl) as [_ H].
  apply (H entry_us).
  - apply list_elem_of_here.
  - exact Hx.
Defined.

Lemma filterAndSortList_deterministic_pure_witness :
  let m := config ["jp"; "us"; "cn"] ["CN"] false "" in
  storeOf m !! 0%nat = Some (Want m)
  /\ storeOf m !! 1%nat = Some (Exclude m)
  /\ Loop container3 ≡ₚ Loop (containerOf [entry_CN; entry_US; entry_JP])
  /\ filterAndSortList up trim m (containerOf [entry_CN; entry_US; entry_JP])
     = filterAndSortList up trim m container3
  /\ (filterAndSortList_store up trim 0 1 container3 (storeOf m)).2 !! 0%nat
     = Some ["jp"; "us"; "cn"].
Proof.
  intros m.
  assert (Hp : Loop container3 ≡ₚ Loop (containerOf [entry_CN; entry_US; entry_JP])).
  { cbn. apply Permutation_cons_app with (l1 := [entry_CN]). cbn.
    apply Permutation_cons_app with (l1 := [entry_CN]). reflexivity. }
  destruct (filterAndSortList_deterministic_pure up trim m container3)
    as [_ [Hperm Hstore]].
  split; [reflexivity|]. split; [reflexivity|]. split; [exact Hp|].
  split; [exact (Hperm _ Hp)|].
  specialize (Hstore (storeOf m) 0%nat 1%nat eq_refl eq_refl).
  destruct (filterAndSortList_store up trim 0 1 container3 (storeOf m))
    as [r σ'].
  destruct Hstore as [_ [_ Hkeep]]. cbn [snd].
  rewrite Hkeep; [reflexivity|].
  apply elem_of_dom. exists (Want m). reflexivity.
Defined.

(** ** Trie *)

(** The selector hands the labels of the overlap example over in the
    order A, B, although the container yields B first. *)
Example select_overlap_order :
  filterAndSortList up trim (config [] [] false "") container_AB = ["A"; "B"].
Proof. vm_compute. reflexivity. Qed.

(** 10.1.2.3 resolves to B, 10.2.3.4 to A and 11.0.0.1 to nothing. *)
Example overlap_evaluated :
  match addEntries (config [] [] false "") container_AB ["A"; "B"] writer6 world0 with
  | (Ok t, _) =>
      mmdbwriter.Lookup t (IPv4Addr 167837955) = Some (countryRecord "B")
      /\ mmdbwriter.Lookup t (IPv4Addr 167904004) = Some (countryRecord "A")
      /\ mmdbwriter.Lookup t (IPv4Addr 184549377) = None
  | (Fail _, _) => False
  end.
Proof. vm_compute. repeat split; reflexivity. Qed.

Lemma overlap_last_write_wins_witness :
  GetEntry container_AB "A" = Some entry_A
  /\ GetEntry container_AB "B" = Some entry_B
  /\ entryPrefixes (config [] [] false "") entry_A = Ok [net_10_8]
  /\ entryPrefixes (config [] [] false "") entry_B = Ok [net_10_1_16]
  /\ exists writer',
      addEntries (config [] [] false "") container_AB ["A"; "B"] writer6 world0
      = (Ok writer', world0)
      /\ mmdbwriter.Lookup writer' (IPv4Addr 167837955) = Some (countryRecord "B")
      /\ mmdbwriter.Lookup writer' (IPv4Addr 167904004) = Some (countryRecord "A").
Proof.
  do 4 (split; [reflexivity|]).
  destruct (overlap_last_write_wins (config [] [] false "") container_AB
              "A" "B" entry_A entry_B writer6 world0
              eq_refl eq_refl eq_refl eq_refl) as [writer' [Hrun Hlook]].
  exists writer'. split; [exact Hrun|]. split.
  - apply (Hlook 167837955%Z); lia.
  - apply (Hlook 167904004%Z); lia.
Defined.

(** ** Inserting one entry *)

(** C4, counterexample: with [onlyIPType] unset, both accessors of the
    entry return an error and [addEntryToWriter] returns no error; the
    writer is as it was. *)
Lemma addEntryToWriter_accessor_errors_counterexample :
  OnlyIPType (config [] [] false "") = ""
  /\ GetIPv4Set entry_YY = Fail (Err "entry YY has no ipv4 set")
  /\ GetIPv6Set entry_YY = Fail (Err "entry YY has no ipv6 set")
  /\ addEntryToWriter (config [] [] false "") writer6 entry_YY "YY" = Ok writer6.
Proof. repeat split; reflexivity. Qed.

Lemma addEntryToWriter_accessor_errors_witness :
  (OnlyIPType (config [] [] false "ipv4") = lib_IPv4
   /\ addEntryToWriter (config [] [] false "ipv4") writer6 entry_XX "XX"
      = Fail (Err "entry XX has no ipv4 set"))
  /\ (OnlyIPType (config [] [] false "ipv6") = lib_IPv6
      /\ addEntryToWriter (config [] [] false "ipv6") writer6 entry_JP "JP"
         = Fail (Err "entry JP has no ipv6 set"))
  /\ (OnlyIPType (config [] [] false "") <> lib_IPv4
      /\ OnlyIPType (config [] [] false "") <> lib_IPv6
      /\ addEntryToWriter (config [] [] false "") writer6 entry_JP "JP"
         = insertPrefixes writer6 [net_203_0_113] (countryRecord "JP")).
Proof.
  split; [|split].
  - split; [reflexivity|].
    destruct (addEntryToWriter_accessor_errors
                (config [] [] false "ipv4") writer6 entry_XX "XX") as [H _].
    exact (H eq_refl _ eq_refl).
  - split; [reflexivity|].
    destruct (addEntryToWriter_accessor_errors
                (config [] [] false "ipv6") writer6 entry_JP "JP") as [_ [H _]].
    exact (H eq_refl _ eq_refl).
  - split; [discriminate|]. split; [discriminate|].
    destruct (addEntryToWriter_accessor_errors
                (config [] [] false "") writer6 entry_JP "JP") as [_ [_ H]].
    apply H; discriminate.
Defined.

Lemma addEntryToWriter_family_filter_witness :
  familiesApart entry_US
  /\ OnlyIPType (config [] [] false "ipv4") = lib_IPv4
  /\ Forall (fun p => Is6 p = false) [net_192_0_2]
  /\ addEntryToWriter (config [] [] false "ipv4") writer6
       (MkEntry "US" (GetIPv4Set entry_US) (Fail (Err "no ipv6"))) "US"
     = addEntryToWriter (config [] [] false "ipv4") writer6 entry_US "US".
Proof.
  assert (Hwf : familiesApart entry_US).
  { split; cbn; repeat constructor. }
  split; [exact Hwf|]. split; [reflexivity|].
  destruct (addEntryToWriter_family_filter
              (config [] [] false "ipv4") writer6 entry_US "US" Hwf)
    as [H _].
  destruct (H eq_refl) as [_ [Hfam Hsame]].
  split; [exact (Hfam _ eq_refl) | exact (Hsame _)].
Defined.

Lemma writer_options_and_record_witness :
  createWriter (config [] [] false "ipv4")
  = Ok (mmdbwriter.MkTree
          (mmdbwriter.MkOptions "GeoIP2-Country"
             [("en", "GeoIP2 Country database converted by geoip tool")] 4 28 true)
          mmdbwriter.Empty)
  /\ mmdbwriter.RecordSize
       (mmdbwriter.opts
          (mmdbwriter.MkTree
             (mmdbwriter.MkOptions "GeoIP2-Country"
                [("en", "GeoIP2 Country database converted by geoip tool")] 4 28 true)
             mmdbwriter.Empty)) = 28%Z.
Proof.
  split; [reflexivity|].
  destruct (writer_options_and_record (config [] [] false "ipv4") "US")
    as [_ [H _]].
  destruct (H _ eq_refl) as [_ [Hsize _]]. exact Hsize.
Defined.

(** ** Output runs *)

(** C1, counterexample: in Per-label mode, with the selected label ZZ
    absent from the container, the run does not abort: it returns success
    after the file of the other label was written. *)
Lemma missing_label_skipped_counterexample :
  OneFilePerList (config ["us"; "zz"] [] true "") = true
  /\ "ZZ" ∈ filterAndSortList up trim (config ["us"; "zz"] [] true "") container3
  /\ GetEntry container3 "ZZ" = None
  /\ (Output up trim low slash_Join os_ok
        (config ["us"; "zz"] [] true "") container3 world0).1 = Ok tt.
Proof.
  split; [reflexivity|]. split.
  - refine (bool_decide_unpack _ _). vm_compute. exact I.
  - split; vm_compute; reflexivity.
Qed.

Lemma missing_label_skipped_witness :
  let m := config ["us"; "zz"] [] false "" in
  MkdirAll_err os_ok (OutputDir m) = None
  /\ "ZZ" ∈ filterAndSortList up trim m container3
  /\ GetEntry container3 "ZZ" = None
  /\ (Output up trim low slash_Join os_ok m container3 world0).1 = Ok tt
  /\ notFoundLine "ZZ"
     ∈ logs (Output up trim low slash_Join os_ok m container3 world0).2.
Proof.
  intros m.
  assert (Hin : "ZZ" ∈ filterAndSortList up trim m container3).
  { refine (bool_decide_unpack _ _). vm_compute. exact I. }
  assert (Hok : (Output up trim low slash_Join os_ok m container3 world0).1 = Ok tt).
  { vm_compute. reflexivity. }
  split; [reflexivity|]. split; [exact Hin|]. split; [reflexivity|].
  split; [exact Hok|].
  destruct (missing_label_skipped up trim low slash_Join os_ok m container3
              world0 "ZZ" eq_refl Hin eq_refl) as [_ [_ Hlog]].
  exact (Hlog Hok).
Defined.

Lemma per_label_build_failure_leaves_no_file_witness :
  let m := config [] [] true "ipv4" in
  let w1 := (outputOneFilePerList low slash_Join os_ok m container4 ["CN"] world0).2 in
  outputOneFilePerList low slash_Join os_ok m container4 ["CN"] world0 = (Ok tt, w1)
  /\ GetEntry container4 "XX" = Some entry_XX
  /\ createWriter m = Ok (mmdbwriter.MkTree
                            (mmdbwriter.MkOptions "GeoIP2-Country"
                               [("en", "GeoIP2 Country database converted by geoip tool")]
                               4 28 true) mmdbwriter.Empty)
  /\ outputOneFilePerList low slash_Join os_ok m container4 ["CN"; "XX"; "US"] world0
     = (Fail (addFailed "XX" (Err "entry XX has no ipv4 set")), w1)
  /\ files w1 !! "output/mmdb/xx.mmdb" = None.
Proof.
  intros m w1.
  assert (Hpre : outputOneFilePerList low slash_Join os_ok m container4 ["CN"] world0
                 = (Ok tt, w1)).
  { vm_compute. reflexivity. }
  split; [exact Hpre|]. split; [reflexivity|]. split; [reflexivity|].
  split.
  - exact (per_label_build_failure_leaves_no_file low slash_Join os_ok m container4
             ["CN"] ["US"] "XX" entry_XX _ _ world0 w1
             Hpre eq_refl eq_refl eq_refl).
  - vm_compute. reflexivity.
Defined.


End Evaluated.

(** * The further properties at sample inputs *)

Section EvaluatedFurther.
Import Sample SampleRun.

(** ** Selector *)

Lemma filterAndSortList_never_excluded_witness :
  "US" ∈ filterAndSortList up trim (config ["us"; "cn"] ["cn"] false "") container3
  /\ "US" ∉ normalized up trim ["cn"].
Proof.
  assert (Hin : "US" ∈ filterAndSortList up trim
                         (config ["us"; "cn"] ["cn"] false "") container3).
  { refine (bool_decide_unpack _ _). vm_compute. exact I. }
  split; [exact Hin|].
  exact (filterAndSortList_never_excluded up trim _ _ _ Hin).
Defined.

Lemma filterAndSortList_all_wanted_excluded_witness :
  (forall x, x ∈ normalized up trim ["cn"] -> x ∈ normalized up trim ["CN"; "kr"])
  /\ filterAndSortList up trim (config ["cn"] ["CN"; "kr"] false "") container3
     = ["JP"; "US"].
Proof.
  assert (Hall : forall x, x ∈ normalized up trim ["cn"] ->
                           x ∈ normalized up trim ["CN"; "kr"]).
  { intros x Hx. vm_compute in Hx. apply list_elem_of_singleton in Hx. subst x.
    refine (bool_decide_unpack _ _). vm_compute. exact I. }
  split; [exact Hall|].
  rewrite (filterAndSortList_all_wanted_excluded up trim
             (config ["cn"] ["CN"; "kr"] false "") container3 Hall).
  vm_compute. reflexivity.
Defined.

(** ** Resolution *)





(** ** What a run touches and logs *)

Lemma Output_touches_only_its_files_witness :
  let m := config [] [] false "" in
  let w := MkWorld {["output/mmdb/notes.txt" := Created]} [] in
  "output/mmdb/notes.txt" <> slash_Join (OutputDir m) (OutputName m)
  /\ files (Output up trim low slash_Join os_ok m container3 w).2
       !! "output/mmdb/notes.txt" = Some Created.
Proof.
  intros m w.
  assert (Hne : "output/mmdb/notes.txt" <> slash_Join (OutputDir m) (OutputName m)).
  { vm_compute. discriminate. }
  split; [exact Hne|].
  rewrite (Output_touches_only_its_files up trim low slash_Join os_ok m container3
             w "output/mmdb/notes.txt" Hne).
  reflexivity.
Defined.

Lemma successful_run_log_witness :
  let m := config [] [] true "" in
  let run := outputOneFilePerList low slash_Join os_ok m container3
               ["US"; "ZZ"] world0 in
  run.1 = Ok tt
  /\ logs run.2 = [doneLine m "us.mmdb"; notFoundLine "ZZ"].
Proof.
  intros m run.
  assert (Hrun : outputOneFilePerList low slash_Join os_ok m container3
                   ["US"; "ZZ"] world0 = (Ok tt, run.2)).
  { vm_compute. reflexivity. }
  split; [vm_compute; reflexivity|].
  destruct (successful_run_log low slash_Join os_ok m container3 ["US"; "ZZ"]
              world0 run.2) as [Hlog _].
  rewrite (Hlog Hrun). vm_compute. reflexivity.
Defined.

Lemma Output_other_ipType_witness :
  let m := config [] [] false "IPv4" in
  OnlyIPType m <> lib_IPv4
  /\ OnlyIPType m <> lib_IPv6
  /\ Output up trim low slash_Join os_ok m container3 world0
     = Output up trim low slash_Join os_ok (config [] [] false "") container3 world0.
Proof.
  intros m.
  assert (H4 : OnlyIPType m <> lib_IPv4) by discriminate.
  assert (H6 : OnlyIPType m <> lib_IPv6) by discriminate.
  split; [exact H4|]. split; [exact H6|].
  exact (Output_other_ipType up trim low slash_Join os_ok m container3 world0 H4 H6).
Defined.


Lemma outputSingleFile_nothing_found_witness :
  let m := config [] [] false "" in
  (forall name, name ∈ ["ZZ"] -> GetEntry container3 name = None)
  /\ exists t,
      (outputSingleFile slash_Join os_ok m container3 ["ZZ"] world0).1 = Ok tt
      /\ files (outputSingleFile slash_Join os_ok m container3 ["ZZ"] world0).2
           !! "output/mmdb/Country.mmdb" = Some (Database t)
      /\ mmdbwriter.Lookup t addr_192_0_2_5 = None.
Proof.
  intros m.
  assert (Hnone : forall name, name ∈ ["ZZ"] -> GetEntry container3 name = None).
  { intros name Hin. apply list_elem_of_singleton in Hin. by subst name. }
  split; [exact Hnone|].
  destruct (outputSingleFile_nothing_found slash_Join os_ok m container3 ["ZZ"]
              world0 Hnone eq_refl eq_refl) as [t [Hrun Hlook]].
  exists t. rewrite Hrun. split; [reflexivity|]. split.
  - apply lookup_insert_eq.
  - apply Hlook.
Defined.

(** ** Construction and command line *)



Lemma main_quick_conversion_witness :
  flag_l flags_no_input = false
  /\ (flag_input flags_no_input <> "" \/ flag_output flags_no_input <> "")
  /\ main low (fun s => s) (fun _ => "") lib_ok marshal flags_no_input
     = ([], Some (Err "input format is required (use -input)")).
Proof.
  assert (Hq : flag_input flags_no_input <> "" \/ flag_output flags_no_input <> "").
  { right. discriminate. }
  split; [reflexivity|]. split; [exact Hq|].
  destruct (main_quick_conversion low (fun s => s) (fun _ => "") lib_ok marshal
              flags_no_input eq_refl Hq) as [_ Hmiss].
  rewrite Hmiss; [reflexivity|]. by left.
Defined.

Lemma quick_conversion_arguments_witness :
  flag_outputFile flags_text <> ""
  /\ outputArgsOf flags_text !! "outputName" = Some (VString "out.mmdb")
  /\ outputArgsOf flags_text !! "outputDir" = None
  /\ inputArgsOf low (fun s => s) (fun _ => "") flags_text !! "wantedList"
     = Some (VStrings ["cn"; "us"]).
Proof.
  assert (Hne : flag_outputFile flags_text <> "") by discriminate.
  destruct (quick_conversion_arguments low (fun s => s) (fun _ => "") flags_text)
    as [_ [Hfile [Hwant _]]].
  specialize (Hfile Hne).
  change (HasSuffix (flag_outputFile flags_text) ".dat"
          || HasSuffix (flag_outputFile flags_text) ".mmdb"
          || HasSuffix (flag_outputFile flags_text) ".txt") with true in Hfile.
  destruct Hfile as [Hname Hdir].
  split; [exact Hne|]. split; [exact Hname|]. split; [exact Hdir|].
  rewrite <- Hwant. vm_compute. reflexivity.
Defined.

End EvaluatedFurther.
